(** * adjust_video.py: the batch re-encoding script, embedded in Rocq

    The script enumerates the video file, asks [ffprobe] for its codec,
    re-encodes it with [ffmpeg] into a temporary sibling when the codec is
    not H.264, replaces the original by the temporary file and prints a
    summary.  Everything it does is an effect: it spawns processes, renames
    and removes files and prints lines.  The embedding threads an explicit
    [World] (file system, printed lines, spawned commands, file-system
    snapshots) through a state-and-exception monad.  The two external
    binaries are a parameter [exec] of the development: what
    [subprocess.run] meets when it spawns a command line, as a function of
    the file system it runs on.  Python [str] values are held as their
    UTF-8 bytes. *)

From Stdlib Require Import ZArith Ascii String List.
From stdpp Require Import base decidable option list sorting strings pretty gmap fin_maps.

Open Scope string_scope.
Open Scope list_scope.
Open Scope Z_scope.

(** ** Python string helpers used by the script *)

Module PyStr.

(** [str.isspace] holds of twenty-nine characters.  Those of one byte:
    tab, LF, VT, FF, CR, the four separators FS GS RS US, and the blank. *)
Definition isspace (c : ascii) : bool :=
  let n := nat_of_ascii c in
  ((9 <=? n)%nat && (n <=? 13)%nat) || ((28 <=? n)%nat && (n <=? 32)%nat).

(** Those of two bytes: U+0085 (C2 85) and U+00A0 (C2 A0). *)
Definition isspace2 (a b : ascii) : bool :=
  let a := nat_of_ascii a in
  let b := nat_of_ascii b in
  (a =? 194)%nat && ((b =? 133)%nat || (b =? 160)%nat).

(** Those of three bytes: U+1680 (E1 9A 80), U+2000 to U+200A (E2 80 80 to
    E2 80 8A), U+2028, U+2029, U+202F (E2 80 A8, A9, AF), U+205F (E2 81 9F)
    and U+3000 (E3 80 80). *)
Definition isspace3 (a b c : ascii) : bool :=
  let a := nat_of_ascii a in
  let b := nat_of_ascii b in
  let c := nat_of_ascii c in
  ((a =? 225)%nat && (b =? 154)%nat && (c =? 128)%nat)
  || ((a =? 226)%nat && (b =? 128)%nat
      && (((128 <=? c)%nat && (c <=? 138)%nat)
          || (c =? 168)%nat || (c =? 169)%nat || (c =? 175)%nat))
  || ((a =? 226)%nat && (b =? 129)%nat && (c =? 159)%nat)
  || ((a =? 227)%nat && (b =? 128)%nat && (c =? 128)%nat).

(** [s.lstrip()]: the white space characters at the front are dropped,
    whatever their length in bytes. *)
Fixpoint lstrip (s : string) : string :=
  match s with
  | String a s1 =>
      if isspace a then lstrip s1
      else
        match s1 with
        | String b s2 =>
            if isspace2 a b then lstrip s2
            else
              match s2 with
              | String c s3 => if isspace3 a b c then lstrip s3 else s
              | EmptyString => s
              end
        | EmptyString => s
        end
  | EmptyString => EmptyString
  end.

(** White space and nothing else. *)
Definition blank (s : string) : bool :=
  match lstrip s with
  | EmptyString => true
  | String _ _ => false
  end.

(** [s.rstrip()]: the text is cut where only white space follows. *)
Fixpoint rstrip (s : string) : string :=
  match s with
  | String a s' => if blank s then EmptyString else String a (rstrip s')
  | EmptyString => EmptyString
  end.

(** [s.strip()] *)
Definition strip (s : string) : string := rstrip (lstrip s).

(** What a text stream opened with the default [newline=None] does to the
    line ends it reads: CR LF and a CR alone both become LF. *)
Fixpoint universal_newlines (s : string) : string :=
  match s with
  | String a s1 =>
      if Ascii.eqb a "013" then
        match s1 with
        | String b s2 =>
            if Ascii.eqb b "010" then String "010" (universal_newlines s2)
            else String "010" (universal_newlines s1)
        | EmptyString => String "010" EmptyString
        end
      else String a (universal_newlines s1)
  | EmptyString => EmptyString
  end.

(** [skip] counts the characters of a match still to be dropped. *)
Fixpoint replace_from (old new : string) (skip : nat) (s : string) : string :=
  match s with
  | EmptyString => EmptyString
  | String c s' =>
      match skip with
      | S k => replace_from old new k s'
      | O =>
          if String.prefix old s
          then new +:+ replace_from old new (Nat.pred (String.length old)) s'
          else String c (replace_from old new O s')
      end
  end.

Fixpoint intersperse (new : string) (s : string) : string :=
  match s with
  | EmptyString => new
  | String c s' => new +:+ String c (intersperse new s')
  end.

(** [s.replace(old, new)]: every non-overlapping occurrence, leftmost
    first; an empty [old] matches between any two characters. *)
Definition replace (old new s : string) : string :=
  match old with
  | EmptyString => intersperse new s
  | _ => replace_from old new O s
  end.

Fixpoint has_slash (p : string) : bool :=
  match p with
  | EmptyString => false
  | String c p' => Ascii.eqb c "/" || has_slash p'
  end.

(** [os.path.basename]: the text after the last slash. *)
Fixpoint basename (p : string) : string :=
  match p with
  | EmptyString => EmptyString
  | String c p' =>
      if has_slash p' then basename p'
      else if Ascii.eqb c "/" then p' else p
  end.





End PyStr.

(** ** The world the script acts on *)

(** The file system: the content of the regular file at each path.  Paths
    are compared as strings; directories and links are not modelled. *)
Abbreviation Files := (gmap string string).

(** What [subprocess.run] meets when it spawns a command.
    [NotFound]: the binary is not on [PATH].
    [Refused]: the operating system does not start it for another reason,
    given by its error number (13 when permission is denied).
    [Exited]: the process ran and exited with a return code, leaving the
    file system in some state; [stdout] and [stderr] are what it wrote to
    the two captured streams, and both decode in the locale's encoding:
    they are given as the text they decode to, line ends as written.
    [Garbled]: the process ran and exited likewise, but one of the two
    streams, given here as bytes, does not decode. *)
Inductive Spawn : Type :=
  | NotFound
  | Refused (errno : Z)
  | Exited (returncode : Z) (stdout stderr : string) (fs' : Files)
  | Garbled (returncode : Z) (stdout stderr : string) (fs' : Files).

(** The exceptions [subprocess.run] raises: for a process that exited with
    a status other than 0 when [check=True], for a binary that is missing,
    for one that the system refuses to start ([PermissionError] and the
    other [OSError]s), and for output that does not decode. *)
Inductive Exn : Type :=
  | CalledProcessError (returncode : Z) (cmd : list string) (stderr : string)
  | FileNotFoundError (filename : string)
  | OSError (errno : Z)
  | UnicodeDecodeError.

Inductive Outcome (A : Type) : Type :=
  | Ret (a : A)
  | Raise (e : Exn).
Arguments Ret {A} a.
Arguments Raise {A} e.

(** [printed]: one entry per [print] call, oldest first.
    [calls]: every command handed to [subprocess.run], with its return code
    ([None] when the binary was not started).
    [hist]: the file system as it stood after each spawned process, each
    [os.replace] and each [os.remove]. *)
Record World : Type := mkWorld {
  fs : Files;
  printed : list string;
  calls : list (list string * option Z);
  hist : list Files
}.

Definition with_print (line : string) (w : World) : World :=
  mkWorld (fs w) (printed w ++ [line]) (calls w) (hist w).

Definition with_call (cmd : list string) (rc : option Z) (w : World) : World :=
  mkWorld (fs w) (printed w) (calls w ++ [(cmd, rc)]) (hist w).

Definition with_fs (f : Files) (w : World) : World :=
  mkWorld f (printed w) (calls w) (hist w ++ [f]).

(** ** State and exceptions *)

Definition M (A : Type) : Type := World → Outcome A * World.

#[global] Instance M_ret : MRet M := λ A a w, (Ret a, w).

#[global] Instance M_bind : MBind M := λ A B k m w,
  match m w with
  | (Ret a, w') => k a w'
  | (Raise e, w') => (Raise e, w')
  end.

(** [try: body except ...: handler]: [handler e] is [None] for an exception
    the clause does not name. *)
Definition try_except {A} (body : M A) (handler : Exn → option (M A)) : M A :=
  λ w, match body w with
       | (Ret a, w') => (Ret a, w')
       | (Raise e, w') =>
           match handler e with
           | Some h => h w'
           | None => (Raise e, w')
           end
       end.

(** [for x in xs: s = body x s] *)
Fixpoint for_each {A S} (xs : list A) (body : A → S → M S) (s : S) : M S :=
  match xs with
  | [] => mret s
  | x :: xs' => s' ← body x s; for_each xs' body s'
  end.

Definition print (line : string) : M unit :=
  λ w, (Ret tt, with_print line w).

(** ** Library calls *)

Definition nl : string := String (ascii_of_nat 10) EmptyString.

(** [s * n] *)
Fixpoint str_mul (s : string) (n : nat) : string :=
  match n with
  | O => EmptyString
  | S k => s +:+ str_mul s k
  end.

(** [str(n)] for an int. *)
Definition str_int (n : Z) : string := pretty n.

(** What Python takes from its own tables when it prints an exception:
    [repr] of a word (the quotes it picks and what it escapes) and [repr]
    of the signal with a given number, where the platform has one
    ([<Signals.SIGKILL: 9>]). *)
Class Platform : Type := {
  repr_str : string → string;
  signal_repr : Z → option string
}.

(** [repr] of a list of words. *)
Definition repr_list `{Platform} (cmd : list string) : string :=
  "[" +:+ String.concat ", " (map repr_str cmd) +:+ "]".

(** [str(e)] for a [CalledProcessError]: the wording of the library for a
    process killed by a signal (negative return code) and for one that
    exited with a status. *)
Definition exn_str `{Platform} (returncode : Z) (cmd : list string) : string :=
  if returncode <? 0 then
    match signal_repr (- returncode) with
    | Some name => "Command '" +:+ repr_list cmd +:+ "' died with " +:+ name +:+ "."
    | None =>
        "Command '" +:+ repr_list cmd +:+ "' died with unknown signal "
          +:+ str_int (- returncode) +:+ "."
    end
  else
    "Command '" +:+ repr_list cmd +:+ "' returned non-zero exit status "
      +:+ str_int returncode +:+ ".".

(** [str] of the probe result inside an f-string. *)
Definition str_codec (codec : option string) : string :=
  match codec with
  | Some c => c
  | None => "None"
  end.

Definition str_le (a b : string) : Prop := String.leb a b = true.
#[global] Instance str_le_dec : RelDecision str_le.
Proof. intros a b. unfold str_le. apply _. Defined.

(** [sorted(xs)] on strings. *)
Definition sorted (xs : list string) : list string := merge_sort str_le xs.

(** [os.path.exists] *)
Definition os_path_exists (p : string) : M bool :=
  λ w, (Ret (bool_decide (is_Some (fs w !! p))), w).

(** [os.remove] *)
Definition os_remove (p : string) : M unit :=
  λ w, match fs w !! p with
       | Some _ => (Ret tt, with_fs (delete p (fs w)) w)
       | None => (Raise (FileNotFoundError p), w)
       end.

(** [os.replace(src, dst)]: one step from the file system with both names
    to the one where [dst] holds what [src] held and [src] is gone. *)
Definition os_replace (src dst : string) : M unit :=
  λ w, match fs w !! src with
       | Some c => (Ret tt, with_fs (<[dst := c]> (delete src (fs w))) w)
       | None => (Raise (FileNotFoundError src), w)
       end.

(** [glob.glob(pattern)] for a pattern without wildcard characters: the
    pattern itself when it names an existing file. *)
Definition glob_glob (pattern : string) : M (list string) :=
  λ w, (Ret (if bool_decide (is_Some (fs w !! pattern)) then [pattern] else []), w).

Section Script.

Context {py : Platform}.

(** The external binaries: what spawning a command line meets on a given
    file system. *)
Variable exec : Files → list string → Spawn.

(** A captured stream as the caller gets it: read through a text stream
    with [text=True], as it is without. *)
Definition captured (text : bool) (stream : string) : string :=
  if text then PyStr.universal_newlines stream else stream.

(** [subprocess.run(cmd, capture_output=True, text=text, check=True)]; the
    result is the captured [stdout].  Output that does not decode stops a
    call with [text=True] before the return code is looked at; a call
    without it takes the bytes as they are. *)
Definition subprocess_run (text : bool) (cmd : list string) : M string :=
  λ w, match exec (fs w) cmd with
       | NotFound =>
           (Raise (FileNotFoundError (hd EmptyString cmd)), with_call cmd None w)
       | Refused errno =>
           (Raise (OSError errno), with_call cmd None w)
       | Exited rc out err f' =>
           let w' := with_fs f' (with_call cmd (Some rc) w) in
           if rc =? 0 then (Ret (captured text out), w')
           else (Raise (CalledProcessError rc cmd (captured text err)), w')
       | Garbled rc out err f' =>
           let w' := with_fs f' (with_call cmd (Some rc) w) in
           if text then (Raise UnicodeDecodeError, w')
           else if rc =? 0 then (Ret out, w')
           else (Raise (CalledProcessError rc cmd err), w')
       end.

Definition ffprobe_cmd (video_path : string) : list string :=
  ["ffprobe"; "-v"; "error"; "-select_streams"; "v:0";
   "-show_entries"; "stream=codec_name"; "-of"; "default=noprint_wrappers=1:nokey=1";
   video_path].

Definition get_video_info (video_path : string) : M (option string) :=
  try_except
    (result_stdout ← subprocess_run true (ffprobe_cmd video_path);
     mret (Some (PyStr.strip result_stdout)))
    (λ e, match e with
          | CalledProcessError returncode cmd _ =>
              Some (print ("Error getting info for " +:+ video_path +:+ ": "
                             +:+ exn_str returncode cmd);;
                    mret None)
          | _ => None
          end).

Definition ffmpeg_cmd (input_path output_path : string) : list string :=
  ["ffmpeg"; "-i"; input_path;
   "-c:v"; "libx264";
   "-profile:v"; "high";
   "-pix_fmt"; "yuv420p";
   "-colorspace"; "bt709";
   "-color_primaries"; "bt709";
   "-color_trc"; "bt709";
   "-crf"; "23";
   "-preset"; "medium";
   "-movflags"; "+faststart";
   "-y";
   output_path].

Definition convert_video (input_path output_path : string) : M bool :=
  try_except
    (let cmd := ffmpeg_cmd input_path output_path in
     print ("Converting: " +:+ PyStr.basename input_path);;
     subprocess_run true cmd;;
     print ("✓ Successfully converted: " +:+ PyStr.basename input_path);;
     mret true)
    (λ e, match e with
          | CalledProcessError returncode cmd stderr =>
              Some (print ("✗ Error converting " +:+ input_path +:+ ": "
                             +:+ exn_str returncode cmd);;
                    print ("stderr: " +:+ stderr);;
                    mret false)
          | _ => None
          end).

Definition temp_output (video_path : string) : string :=
  PyStr.replace ".mp4" "_temp.mp4" video_path.

(** The body of the [for] loop of [main]; the state is
    [(success_count, skip_count)]. *)
Definition loop_body (video_path : string) (counts : Z * Z) : M (Z * Z) :=
  let '(success_count, skip_count) := counts in
  codec ← get_video_info video_path;
  if bool_decide (codec = Some "h264") then
    print ("⊙ Skipping " +:+ PyStr.basename video_path +:+ " (already H.264)");;
    mret (success_count, skip_count + 1)
  else
    print ("Current codec: " +:+ str_codec codec);;
    let temp_output := temp_output video_path in
    converted ← convert_video video_path temp_output;
    success_count' ←
      (if converted : bool then
         os_replace temp_output video_path;;
         mret (success_count + 1)
       else
         found ← os_path_exists temp_output;
         (if found : bool then os_remove temp_output else mret tt);;
         mret success_count);
    print "";;
    mret (success_count', skip_count).

Definition process_videos (video_files : list string) : M (Z * Z) :=
  for_each video_files loop_body (0, 0).

Definition version_cmd : list string := ["ffmpeg"; "-version"].

(** [main] from the test on [video_files] onwards. *)
Definition main_from (video_files : list string) : M unit :=
  if bool_decide (video_files = []) then
    print "No video_{scene_id}.mp4 files found!"
  else
    let total := Z.of_nat (length video_files) in
    print ("Found " +:+ str_int total +:+ " video files to process" +:+ nl);;
    available ←
      try_except
        (subprocess_run false version_cmd;; mret true)
        (λ e, match e with
              | CalledProcessError _ _ _ | FileNotFoundError _ =>
                  Some (print "Error: ffmpeg is not installed or not in PATH";;
                        print "Please install ffmpeg: brew install ffmpeg";;
                        mret false)
              | _ => None
              end);
    if available : bool then
      '(success_count, skip_count) ← process_videos video_files;
      print (nl +:+ str_mul "=" 50);;
      print "Conversion complete!";;
      print ("  Successfully converted: " +:+ str_int success_count);;
      print ("  Skipped (already H.264): " +:+ str_int skip_count);;
      print ("  Failed: " +:+ str_int (total - success_count - skip_count));;
      print (str_mul "=" 50)
    else mret tt.

(** [Path('./static/videos')], which prints without the leading dot. *)
Definition video_dir : string := "static/videos".
Definition video_pattern : string := video_dir +:+ "/" +:+ "video_0446.mp4".

Definition main : M unit :=
  video_files ← (matches ← glob_glob video_pattern; mret (sorted matches));
  main_from video_files.

End Script.

(** ** Names for the worlds and lines the script produces *)

Section Names.

Context {py : Platform}.

(** The world after [subprocess.run] of a command that exited. *)
Definition ran (cmd : list string) (rc : Z) (f' : Files) (w : World) : World :=
  with_fs f' (with_call cmd (Some rc) w).

(** The world after [subprocess.run] of a command, whatever it met. *)
Definition spawned (cmd : list string) (r : Spawn) (w : World) : World :=
  match r with
  | NotFound | Refused _ => with_call cmd None w
  | Exited rc _ _ f' | Garbled rc _ _ f' => ran cmd rc f' w
  end.

(** The return code [subprocess.run] saw, if the process was started. *)
Definition returncode_of (r : Spawn) : option Z :=
  match r with
  | NotFound | Refused _ => None
  | Exited rc _ _ _ | Garbled rc _ _ _ => Some rc
  end.

(** The exception, if any, with which a call with [text=True] ends before
    the return code is looked at. *)
Definition spawn_stops (cmd : list string) (r : Spawn) : option Exn :=
  match r with
  | NotFound => Some (FileNotFoundError (hd EmptyString cmd))
  | Refused errno => Some (OSError errno)
  | Garbled _ _ _ _ => Some UnicodeDecodeError
  | Exited _ _ _ _ => None
  end.

Definition probe_error_line (p : string) (rc : Z) (err : string) : string :=
  "Error getting info for " +:+ p +:+ ": " +:+ exn_str rc (ffprobe_cmd p).

Definition convert_error_line (i o : string) (rc : Z) (err : string) : string :=
  "✗ Error converting " +:+ i +:+ ": " +:+ exn_str rc (ffmpeg_cmd i o).

Definition converting (i : string) (w : World) : World :=
  with_print ("Converting: " +:+ PyStr.basename i) w.

Definition skip_line (p : string) : string :=
  "⊙ Skipping " +:+ PyStr.basename p +:+ " (already H.264)".

(** What [get_video_info] returns, and the world it leaves, when [ffprobe]
    exited with code [rc]. *)
Definition probed_codec (rc : Z) (out : string) : option string :=
  if rc =? 0 then Some (PyStr.strip (PyStr.universal_newlines out)) else None.

Definition after_probe (p : string) (rc : Z) (err : string) (f' : Files)
    (w : World) : World :=
  if rc =? 0 then ran (ffprobe_cmd p) 0 f' w
  else with_print (probe_error_line p rc err) (ran (ffprobe_cmd p) rc f' w).

(** The world in which [convert_video] spawns the transcoder for a file
    whose codec is not H.264. *)
Definition before_convert (p : string) (codec : option string) (w : World) : World :=
  converting p (with_print ("Current codec: " +:+ str_codec codec) w).

(** The same, for a file whose probe gave [rc] and [out]. *)
Definition at_convert (p : string) (rc : Z) (out err : string) (f1 : Files)
    (w : World) : World :=
  before_convert p (probed_codec rc out) (after_probe p rc err f1 w).

Definition after_convert_ok (p : string) (f' : Files) (w : World) : World :=
  with_print ("✓ Successfully converted: " +:+ PyStr.basename p)
    (ran (ffmpeg_cmd p (temp_output p)) 0 f' w).

Definition after_convert_fail (p : string) (rc : Z) (err : string) (f' : Files)
    (w : World) : World :=
  with_print ("stderr: " +:+ PyStr.universal_newlines err)
    (with_print (convert_error_line p (temp_output p) rc err)
       (ran (ffmpeg_cmd p (temp_output p)) rc f' w)).

(** The cleanup after a failed conversion. *)
Definition cleaned (tmp : string) (w : World) : World :=
  match fs w !! tmp with
  | Some _ => with_fs (delete tmp (fs w)) w
  | None => w
  end.

(** The six lines of the final block. *)
Definition summary_block (converted skipped failed : Z) : list string :=
  [nl +:+ str_mul "=" 50;
   "Conversion complete!";
   "  Successfully converted: " +:+ str_int converted;
   "  Skipped (already H.264): " +:+ str_int skipped;
   "  Failed: " +:+ str_int failed;
   str_mul "=" 50].

Definition found_line (total : Z) : string :=
  "Found " +:+ str_int total +:+ " video files to process" +:+ nl.

(** The world in which the loop of [main] starts: the count of files has
    been printed and the version probe has exited with 0. *)
Definition at_loop (files : list string) (f1 : Files) (w : World) : World :=
  ran version_cmd 0 f1 (with_print (found_line (Z.of_nat (length files))) w).

Definition with_prints (lines : list string) (w : World) : World :=
  mkWorld (fs w) (printed w ++ lines) (calls w) (hist w).

End Names.

(** ** Reading the list of spawned commands *)

(** A transcoder invocation, as opposed to the version probe. *)
Definition is_transcode (cmd : list string) : bool :=
  match cmd with
  | "ffmpeg" :: "-i" :: _ => true
  | _ => false
  end.

Definition transcode_ok (c : list string * option Z) : bool :=
  is_transcode c.1 && bool_decide (c.2 = Some 0).

Definition transcode_failed (c : list string * option Z) : bool :=
  is_transcode c.1 && match c.2 with Some rc => negb (rc =? 0) | None => false end.

Definition count_calls (f : list string * option Z → bool)
    (cs : list (list string * option Z)) : Z :=
  Z.of_nat (length (filter (λ c, f c = true) cs)).

(** ** What is assumed of the binaries, where a statement needs it *)

Section Tools.

Variable exec : Files → list string → Spawn.

(** The file system a spawn leaves: the one the process left if it ran,
    the one of before if it was not started. *)
Definition left_by (f : Files) (r : Spawn) : Files :=
  match r with
  | Exited _ _ _ f' | Garbled _ _ _ f' => f'
  | NotFound | Refused _ => f
  end.

(** A command that leaves every file as it found it. *)
Definition read_only (cmd : list string) : Prop :=
  ∀ f, left_by f (exec f cmd) = f.

(** A command that touches no path but [o]. *)
Definition writes_only (cmd : list string) (o : string) : Prop :=
  ∀ f q, q ≠ o → left_by f (exec f cmd) !! q = f !! q.

(** Every run of the prober and of the transcoder is started, exits, and
    writes output that decodes. *)
Definition responsive : Prop :=
  (∀ f p, ∃ rc out err f', exec f (ffprobe_cmd p) = Exited rc out err f')
  ∧ (∀ f i o, ∃ rc out err f', exec f (ffmpeg_cmd i o) = Exited rc out err f').

(** A transcoder that exits with 0 has written its output file. *)
Definition leaves_output : Prop :=
  ∀ f i o out err f',
    exec f (ffmpeg_cmd i o) = Exited 0 out err f' → is_Some (f' !! o).

(** The prober and the version probe read; the transcoder writes its
    output path only. *)
Definition confined : Prop :=
  read_only version_cmd
  ∧ (∀ p, read_only (ffprobe_cmd p))
  ∧ (∀ i o, writes_only (ffmpeg_cmd i o) o).

End Tools.



(** ** Stand-ins for the binaries *)

(** A prober that exits with [prc] and prints [pout]; a transcoder that
    exits with [crc], having written ["H264DATA"] on success and a stub on
    failure; the version probe succeeds. *)
Definition fake (prc : Z) (pout : string) (crc : Z) : Files → list string → Spawn :=
  λ f cmd,
    match cmd with
    | "ffprobe" :: _ => Exited prc pout "probe-diagnostic" f
    | ["ffmpeg"; "-version"] => Exited 0 "ffmpeg version 6.0" "" f
    | "ffmpeg" :: rest =>
        if crc =? 0 then Exited 0 "" "" (<[List.last rest "" := "H264DATA"]> f)
        else Exited crc "" "encoder-diagnostic" (<[List.last rest "" := "PART"]> f)
    | _ => NotFound
    end.

(** No binary at all. *)
Definition nothing_installed : Files → list string → Spawn := λ _ _, NotFound.

(** The transcoder is installed, the prober is not. *)
Definition no_ffprobe : Files → list string → Spawn :=
  λ f cmd,
    match cmd with
    | "ffprobe" :: _ => NotFound
    | _ => fake 0 "" 0 f cmd
    end.

(** A prober whose output is a byte that no text starts with; the rest as
    in [fake], and working. *)
Definition garbled_probe : Files → list string → Spawn :=
  λ f cmd,
    match cmd with
    | "ffprobe" :: _ => Garbled 0 (String "255" EmptyString) "" f
    | _ => fake 0 "" 0 f cmd
    end.

(** A transcoder that exits with 0 and writes nothing; the prober answers
    [mpeg4]. *)
Definition silent_transcoder : Files → list string → Spawn :=
  λ f cmd,
    match cmd with
    | "ffmpeg" :: "-i" :: _ => Exited 0 "" "" f
    | _ => fake 0 "mpeg4" 0 f cmd
    end.

(** A transcoder that may not be executed (error 13, permission denied);
    the prober answers [mpeg4]. *)
Definition locked_transcoder : Files → list string → Spawn :=
  λ f cmd,
    match cmd with
    | "ffmpeg" :: "-i" :: _ => Refused 13
    | _ => fake 0 "mpeg4" 0 f cmd
    end.

(** Binaries that the system does not let the user execute (error 13,
    permission denied). *)
Definition no_permission : Files → list string → Spawn := λ _ _, Refused 13.

(** A version probe whose banner does not decode; the rest as in [fake],
    the prober answering [h264]. *)
Definition garbled_banner (rc : Z) : Files → list string → Spawn :=
  λ f cmd,
    match cmd with
    | ["ffmpeg"; "-version"] => Garbled rc (String "255" EmptyString) "" f
    | _ => fake 0 "h264" 0 f cmd
    end.

(** Three files: the first already H.264, the second converted, the
    third refused by the transcoder, which leaves a partial output. *)
Definition scenario : Files → list string → Spawn :=
  λ f cmd,
    match cmd with
    | "ffprobe" :: rest =>
        Exited 0 (if String.eqb (List.last rest "") "a.mp4" then "h264" +:+ nl
                  else "mpeg4" +:+ nl) "" f
    | ["ffmpeg"; "-version"] => Exited 0 "ffmpeg version 6.0" "" f
    | "ffmpeg" :: "-i" :: i :: rest =>
        if String.eqb i "c.mp4"
        then Exited 1 "" "encoder-diagnostic" (<[List.last rest "" := "PART"]> f)
        else Exited 0 "" "" (<[List.last rest "" := "H264DATA"]> f)
    | _ => NotFound
    end.

Definition three_videos : World :=
  mkWorld {[ "a.mp4" := "A"; "b.mp4" := "B"; "c.mp4" := "C" ]} [] [] [].

(** A platform for the runs on the stand-ins: words are shown in single
    quotes, which is what Python does for a word without quotes, backslashes
    or control characters, and signal 9 is the one that has a name. *)
Definition plain_platform : Platform :=
  {| repr_str := λ a, "'" +:+ a +:+ "'";
     signal_repr := λ n, if n =? 9 then Some "<Signals.SIGKILL: 9>" else None |}.

Definition empty_world : World := mkWorld ∅ [] [] [].

Definition one_video : World :=
  mkWorld {[ "static/videos/video_0446.mp4" := "MPEG4DATA" ]} [] [] [].

(** ** Reading a run *)

(** What discovery finds in a world. *)
Definition candidates (w : World) : list string :=
  if bool_decide (is_Some (fs w !! video_pattern)) then [video_pattern] else [].

(** The lines a run added to what was printed before it; likewise for the
    spawned commands. *)
Definition new_lines (w w' : World) : list string :=
  drop (length (printed w)) (printed w').

Definition new_calls (w w' : World) : list (list string * option Z) :=
  drop (length (calls w)) (calls w').

(** The output ends with the final block for these three counts. *)
Definition prints_summary (lines : list string) (converted skipped failed : Z) : Prop :=
  ∃ pre, lines = pre ++ summary_block converted skipped failed.

(** The run of [main] on a world: how it ended and the world it left. *)
Definition ending {A} (r : Outcome A * World) : Outcome A := r.1.
Definition final {A} (r : Outcome A * World) : World := r.2.

(** ** Reading strings and traces, for the properties beyond the claims *)

(** The byte a text stream puts where it read [b]. *)
Definition read_as (b : ascii) : ascii := if Ascii.eqb b "013" then "010" else b.

(** A visible ASCII character. *)
Definition visible (a : ascii) : bool :=
  let n := nat_of_ascii a in (33 <=? n)%nat && (n <=? 126)%nat.

(** A string of visible ASCII characters. *)
Fixpoint word (s : string) : bool :=
  match s with
  | EmptyString => true
  | String a s' => visible a && word s'
  end.

(** [old in s] *)
Fixpoint occurs (old s : string) : bool :=
  String.prefix old s
  || match s with
     | EmptyString => false
     | String _ s' => occurs old s'
     end.

(** A prober invocation. *)
Definition is_probe (cmd : list string) : bool :=
  match cmd with
  | "ffprobe" :: _ => true
  | _ => false
  end.

Definition probes (cs : list (list string * option Z)) : list (list string) :=
  (filter (λ c, is_probe c.1 = true) cs).*1.

Definition transcodes (cs : list (list string * option Z)) : list (list string) :=
  (filter (λ c, is_transcode c.1 = true) cs).*1.

(** A prober that answers from the content of the file it is given:
    ["h264"] for what the stand-in transcoder writes, ["mpeg4"] otherwise.
    The transcoder and the version probe are those of [fake], and work. *)
Definition content_prober : Files → list string → Spawn :=
  λ f cmd,
    match cmd with
    | "ffprobe" :: rest =>
        Exited 0
          (if bool_decide (f !! List.last rest "" = Some "H264DATA")
           then "h264" +:+ nl else "mpeg4" +:+ nl)
          "" f
    | _ => fake 0 "" 0 f cmd
    end.

(** A file whose name has no lower-case [.mp4] in it. *)
Definition upper_video : World := mkWorld {[ "CLIP.MP4" := "MPEG4DATA" ]} [] [] [].

(** ** White space and line ends *)

Section WhiteSpace.

Import PyStr.

Local Abbreviation tr := universal_newlines.

Lemma isspace2_high a b : isspace2 a b = true → (128 ≤ nat_of_ascii b)%nat.
Proof.
  unfold isspace2. cbv zeta.
  rewrite andb_true_iff, orb_true_iff, !Nat.eqb_eq. lia.
Qed.

Lemma isspace3_high a b c :
  isspace3 a b c = true → (128 ≤ nat_of_ascii b)%nat ∧ (128 ≤ nat_of_ascii c)%nat.
Proof.
  unfold isspace3. cbv zeta.
  rewrite !orb_true_iff, !andb_true_iff, !orb_true_iff, !andb_true_iff,
    !Nat.eqb_eq, !Nat.leb_le. lia.
Qed.

Lemma isspace3_low a b c :
  (nat_of_ascii b < 128)%nat ∨ (nat_of_ascii c < 128)%nat → isspace3 a b c = false.
Proof.
  intros H. destruct (isspace3 a b c) eqn:E; [|reflexivity].
  apply isspace3_high in E. lia.
Qed.

Lemma read_as_low b : (nat_of_ascii b < 128)%nat → (nat_of_ascii (read_as b) < 128)%nat.
Proof. unfold read_as. destruct (Ascii.eqb b "013"); [vm_compute; lia | trivial]. Qed.

Lemma read_as_high b : (128 ≤ nat_of_ascii b)%nat → read_as b = b.
Proof.
  intros H. unfold read_as. destruct (Ascii.eqb_spec b "013") as [->|]; [|reflexivity].
  vm_compute in H. lia.
Qed.

Lemma isspace3_read_as a b c : isspace3 a (read_as b) (read_as c) = isspace3 a b c.
Proof.
  destruct (Nat.lt_ge_cases (nat_of_ascii b) 128).
  { rewrite !isspace3_low; auto using read_as_low. }
  destruct (Nat.lt_ge_cases (nat_of_ascii c) 128).
  { rewrite !isspace3_low; auto using read_as_low. }
  now rewrite !read_as_high.
Qed.

(** A text stream reads a non-empty string as a non-empty one, whose first
    byte is that of the string read as text. *)
Lemma universal_newlines_head b s :
  ∃ t, tr (String b s) = String (read_as b) t
       ∧ ((128 ≤ nat_of_ascii b)%nat → t = tr s)
       ∧ (s = EmptyString → t = EmptyString).
Proof.
  unfold read_as. cbn [universal_newlines].
  destruct (Ascii.eqb_spec b "013") as [->|Hb].
  - destruct s as [|c s].
    + eexists. split; [reflexivity|]. split; [intros H; vm_compute in H; lia | reflexivity].
    + destruct (Ascii.eqb c "010"); eexists; (split; [reflexivity|]);
        (split; [intros H; vm_compute in H; lia | discriminate]).
  - eexists. split; [reflexivity|]. split; [reflexivity|]. now intros ->.
Qed.

Lemma universal_newlines_cons a s :
  a ≠ "013"%char → tr (String a s) = String a (tr s).
Proof.
  intros H. cbn [universal_newlines].
  now destruct (Ascii.eqb_spec a "013").
Qed.

Lemma universal_newlines_cr b s :
  b ≠ "010"%char → tr (String "013" (String b s)) = String "010" (tr (String b s)).
Proof.
  intros H.
  change (tr (String "013" (String b s)))
    with (if Ascii.eqb b "010" then String "010" (tr s)
          else String "010" (tr (String b s))).
  now destruct (Ascii.eqb_spec b "010").
Qed.

Lemma lstrip_universal_newlines_upto n :
  ∀ s, (String.length s ≤ n)%nat → lstrip (tr s) = tr (lstrip s).
Proof.
  induction n as [|n IH]; intros s Hn.
  { destruct s; [reflexivity | cbn in Hn; lia]. }
  destruct s as [|a s1]; [reflexivity|]. cbn [String.length] in Hn.
  destruct (isspace a) eqn:Ea.
  { (* a white space byte is dropped, and so is what it is read as *)
    assert (Hl : lstrip (String a s1) = lstrip s1) by (cbn [lstrip]; now rewrite Ea).
    rewrite Hl.
    destruct (Ascii.eqb_spec a "013") as [->|Ha].
    - destruct s1 as [|b s2]; [reflexivity|].
      destruct (Ascii.eqb_spec b "010") as [->|Hb].
      + change (lstrip (tr (String "013" (String "010" s2)))) with (lstrip (tr s2)).
        change (lstrip (String "010" s2)) with (lstrip s2).
        apply IH. cbn [String.length] in Hn. lia.
      + rewrite universal_newlines_cr by exact Hb.
        change (lstrip (String "010" ?x)) with (lstrip x).
        apply IH. lia.
    - rewrite universal_newlines_cons by exact Ha.
      cbn [lstrip]. rewrite Ea. apply IH. lia. }
  assert (Ha : a ≠ "013"%char) by (intros ->; discriminate Ea).
  rewrite universal_newlines_cons by exact Ha.
  destruct s1 as [|b s2].
  { cbn [lstrip universal_newlines]. rewrite Ea.
    now rewrite universal_newlines_cons. }
  destruct (Ascii.eqb_spec b "013") as [->|Hb].
  { (* a CR after [a]: neither it nor the LF it is read as is part of a
       white space character that starts at [a] *)
    destruct (universal_newlines_head "013" s2) as (t & Ht & _ & _).
    rewrite Ht. change (read_as "013") with "010"%char.
    assert (Hl : ∀ x y, lstrip (String a (String x y)) = String a (String x y)
                        ∨ (128 ≤ nat_of_ascii x)%nat).
    { intros x y. cbn [lstrip]. rewrite Ea.
      destruct (isspace2 a x) eqn:E2; [right; now apply isspace2_high in E2|].
      destruct y as [|z y]; [now left|].
      destruct (isspace3 a x z) eqn:E3; [right; now apply isspace3_high in E3|now left]. }
    destruct (Hl "010"%char t) as [->|H]; [|vm_compute in H; lia].
    destruct (Hl "013"%char s2) as [->|H]; [|vm_compute in H; lia].
    rewrite universal_newlines_cons by exact Ha. now rewrite Ht. }
  rewrite (universal_newlines_cons b) by exact Hb.
  cbn [lstrip]. rewrite Ea.
  destruct (isspace2 a b) eqn:E2.
  { apply IH. cbn [String.length] in Hn. lia. }
  destruct s2 as [|c s3].
  { change (tr EmptyString) with EmptyString. cbv iota.
    rewrite !universal_newlines_cons by assumption. reflexivity. }
  destruct (universal_newlines_head c s3) as (t & Ht & Hhigh & _).
  rewrite Ht.
  replace (isspace3 a b (read_as c)) with (isspace3 a b c).
  2:{ assert (Hrb : read_as b = b).
      { unfold read_as. now destruct (Ascii.eqb_spec b "013"). }
      rewrite <- (isspace3_read_as a b c). now rewrite Hrb. }
  destruct (isspace3 a b c) eqn:E3.
  { rewrite Hhigh by now apply isspace3_high in E3.
    apply IH. cbn [String.length] in Hn. lia. }
  rewrite !universal_newlines_cons by assumption. now rewrite Ht.
Qed.

Lemma lstrip_universal_newlines s : lstrip (tr s) = tr (lstrip s).
Proof. now apply (lstrip_universal_newlines_upto (String.length s)). Qed.

Lemma blank_universal_newlines s : blank (tr s) = blank s.
Proof.
  unfold blank. rewrite lstrip_universal_newlines.
  destruct (lstrip s) as [|b t] eqn:E; [reflexivity|].
  destruct (universal_newlines_head b t) as (t' & Ht & _). now rewrite Ht.
Qed.

Lemma rstrip_cons a s :
  rstrip (String a s) = if blank (String a s) then EmptyString else String a (rstrip s).
Proof. reflexivity. Qed.

Lemma rstrip_universal_newlines_upto n :
  ∀ s, (String.length s ≤ n)%nat → rstrip (tr s) = tr (rstrip s).
Proof.
  induction n as [|n IH]; intros s Hn.
  { destruct s; [reflexivity | cbn in Hn; lia]. }
  destruct s as [|a s1]; [reflexivity|]. cbn [String.length] in Hn.
  rewrite (rstrip_cons a s1).
  pose proof (blank_universal_newlines (String a s1)) as Hb.
  destruct (Ascii.eqb_spec a "013") as [->|Ha].
  - change (blank (String "013" s1)) with (blank s1) in Hb |- *.
    destruct s1 as [|b s2]; [reflexivity|].
    rewrite (rstrip_cons b s2).
    destruct (Ascii.eqb_spec b "010") as [->|Hlf].
    + change (tr (String "013" (String "010" s2))) with (String "010" (tr s2)) in Hb |- *.
      rewrite rstrip_cons, Hb.
      destruct (blank (String "010" s2)); [reflexivity|].
      change (tr (String "013" (String "010" (rstrip s2))))
        with (String "010" (tr (rstrip s2))).
      rewrite IH; [reflexivity|]. cbn [String.length] in Hn. lia.
    + rewrite universal_newlines_cr in Hb |- * by exact Hlf.
      rewrite rstrip_cons, Hb.
      destruct (blank (String b s2)) eqn:Eb; [reflexivity|].
      rewrite IH by lia. rewrite (rstrip_cons b s2), Eb.
      now rewrite universal_newlines_cr.
  - rewrite universal_newlines_cons in Hb |- * by exact Ha.
    rewrite rstrip_cons, Hb.
    destruct (blank (String a s1)); [reflexivity|].
    rewrite universal_newlines_cons by exact Ha.
    rewrite IH; [reflexivity|lia].
Qed.

Lemma rstrip_universal_newlines s : rstrip (tr s) = tr (rstrip s).
Proof. now apply (rstrip_universal_newlines_upto (String.length s)). Qed.

(** Stripping what a text stream read is reading what was stripped. *)
Lemma strip_universal_newlines s : strip (tr s) = tr (strip s).
Proof.
  unfold strip. now rewrite lstrip_universal_newlines, rstrip_universal_newlines.
Qed.

Lemma strip_h264 out :
  strip out = "h264" → strip (tr out) = "h264".
Proof. intros H. now rewrite strip_universal_newlines, H. Qed.

End WhiteSpace.

Section Padding.

Import PyStr.

Local Abbreviation tr := universal_newlines.

Lemma append_cons c a b : String c a +:+ b = String c (a +:+ b).
Proof. reflexivity. Qed.

Lemma append_nil b : EmptyString +:+ b = b.
Proof. reflexivity. Qed.

Lemma isspace2_first a b : isspace2 a b = true → nat_of_ascii a = 194%nat.
Proof.
  unfold isspace2. cbv zeta.
  rewrite andb_true_iff, orb_true_iff, !Nat.eqb_eq. lia.
Qed.

Lemma isspace3_first a b c : isspace3 a b c = true → (225 ≤ nat_of_ascii a)%nat.
Proof.
  unfold isspace3. cbv zeta.
  rewrite !orb_true_iff, !andb_true_iff, !orb_true_iff, !andb_true_iff,
    !Nat.eqb_eq, !Nat.leb_le. lia.
Qed.

Lemma visible_spec a :
  visible a = true → isspace a = false ∧ (nat_of_ascii a < 128)%nat ∧ a ≠ "013"%char.
Proof.
  unfold visible, isspace. cbv zeta.
  rewrite andb_true_iff, !Nat.leb_le. intros [H1 H2].
  split; [|split; [lia|]].
  - apply orb_false_iff. split; apply andb_false_iff; rewrite !Nat.leb_gt; lia.
  - intros ->. vm_compute in H1. lia.
Qed.

(** Nothing is stripped in front of a visible character. *)
Lemma lstrip_visible a s : visible a = true → lstrip (String a s) = String a s.
Proof.
  intros H. apply visible_spec in H as (Ha & Hlow & _).
  cbn [lstrip]. rewrite Ha.
  destruct s as [|b s]; [reflexivity|].
  destruct (isspace2 a b) eqn:E2; [apply isspace2_first in E2; lia|].
  destruct s as [|c s]; [reflexivity|].
  destruct (isspace3 a b c) eqn:E3; [apply isspace3_first in E3; lia|].
  reflexivity.
Qed.

Lemma blank_visible a s : visible a = true → blank (String a s) = false.
Proof. intros H. unfold blank. now rewrite lstrip_visible. Qed.

Lemma lstrip_blank_upto n :
  ∀ pre s, (String.length pre ≤ n)%nat →
    blank pre = true → lstrip (pre +:+ s) = lstrip s.
Proof.
  induction n as [|n IH]; intros pre s Hn Hb.
  { destruct pre; [reflexivity | cbn in Hn; lia]. }
  destruct pre as [|a p1]; [reflexivity|]. cbn [String.length] in Hn.
  unfold blank in Hb. rewrite append_cons. cbn [lstrip] in Hb |- *.
  destruct (isspace a).
  { apply IH; [lia | exact Hb]. }
  destruct p1 as [|b p2]; [discriminate Hb|]. rewrite append_cons.
  cbn [String.length] in Hn.
  destruct (isspace2 a b).
  { apply IH; [lia | exact Hb]. }
  destruct p2 as [|c p3]; [discriminate Hb|]. rewrite append_cons.
  cbn [String.length] in Hn.
  destruct (isspace3 a b c); [|discriminate Hb].
  apply IH; [lia | exact Hb].
Qed.

(** White space in front of a string is stripped with the string's own. *)
Lemma lstrip_blank pre s : blank pre = true → lstrip (pre +:+ s) = lstrip s.
Proof. now apply (lstrip_blank_upto (String.length pre)). Qed.

Lemma rstrip_blank post : blank post = true → rstrip post = EmptyString.
Proof. intros H. destruct post as [|a s]; [reflexivity|]. now rewrite rstrip_cons, H. Qed.

(** White space after a word is stripped, and the word is kept. *)
Lemma rstrip_word core post :
  word core = true → blank post = true → rstrip (core +:+ post) = core.
Proof.
  intros Hw Hb. induction core as [|a core IH].
  - now apply rstrip_blank.
  - cbn [word] in Hw. apply andb_prop in Hw as [Ha Hw].
    rewrite append_cons, rstrip_cons, blank_visible by exact Ha.
    now rewrite IH.
Qed.

Lemma lstrip_word core post :
  word core = true → blank post = true →
  lstrip (core +:+ post) = if blank core then EmptyString else core +:+ post.
Proof.
  intros Hw Hb. destruct core as [|a core].
  - unfold blank in Hb. rewrite append_nil.
    now destruct (lstrip post).
  - cbn [word] in Hw. apply andb_prop in Hw as [Ha _].
    rewrite (blank_visible a core Ha), append_cons. now apply lstrip_visible.
Qed.

Lemma universal_newlines_word core : word core = true → tr core = core.
Proof.
  induction core as [|a core IH]; [reflexivity|].
  cbn [word]. intros H. apply andb_prop in H as [Ha Hw].
  apply visible_spec in Ha as (_ & _ & Ha).
  rewrite universal_newlines_cons by exact Ha. now rewrite IH.
Qed.

(** A word with white space of any kind around it, read as text and
    stripped, is the word. *)
Lemma strip_padded pre core post :
  blank pre = true → word core = true → blank post = true →
  strip (tr (pre +:+ core +:+ post)) = core.
Proof.
  intros Hpre Hw Hpost.
  rewrite strip_universal_newlines. unfold strip.
  rewrite lstrip_blank by exact Hpre.
  rewrite lstrip_word by assumption.
  destruct core as [|a core]; [reflexivity|].
  cbn [word] in Hw. pose proof Hw as Hw'. apply andb_prop in Hw' as [Ha _].
  rewrite (blank_visible a core Ha), rstrip_word by assumption.
  now apply universal_newlines_word.
Qed.

End Padding.

(** ** How one call of each function of the script runs *)

Section Steps.

Context {py : Platform}.

Variable exec : Files → list string → Spawn.

Lemma bind_ret {A B} (m : M A) (k : A → M B) a w w' :
  m w = (Ret a, w') → (m ≫= k) w = k a w'.
Proof. intros H. unfold mbind, M_bind. now rewrite H. Qed.

Lemma bind_raise {A B} (m : M A) (k : A → M B) e w w' :
  m w = (Raise e, w') → (m ≫= k) w = (Raise e, w').
Proof. intros H. unfold mbind, M_bind. now rewrite H. Qed.

Lemma for_each_cons {A S} (x : A) xs (body : A → S → M S) s s' w w' :
  body x s w = (Ret s', w') →
  for_each (x :: xs) body s w = for_each xs body s' w'.
Proof. intros H. simpl. now apply bind_ret. Qed.

Lemma for_each_raise {A S} (x : A) xs (body : A → S → M S) s e w w' :
  body x s w = (Raise e, w') →
  for_each (x :: xs) body s w = (Raise e, w').
Proof. intros H. simpl. now apply bind_raise. Qed.

Lemma subprocess_run_exit0 text cmd w out err f' :
  exec (fs w) cmd = Exited 0 out err f' →
  subprocess_run exec text cmd w = (Ret (captured text out), ran cmd 0 f' w).
Proof. intros H. unfold subprocess_run. now rewrite H. Qed.

Lemma subprocess_run_fail text cmd w rc out err f' :
  exec (fs w) cmd = Exited rc out err f' → rc ≠ 0 →
  subprocess_run exec text cmd w
  = (Raise (CalledProcessError rc cmd (captured text err)), ran cmd rc f' w).
Proof.
  intros H Hrc. unfold subprocess_run. rewrite H.
  destruct (Z.eqb_spec rc 0); [contradiction | reflexivity].
Qed.

Lemma subprocess_run_notfound text cmd w :
  exec (fs w) cmd = NotFound →
  subprocess_run exec text cmd w
  = (Raise (FileNotFoundError (hd EmptyString cmd)), with_call cmd None w).
Proof. intros H. unfold subprocess_run. now rewrite H. Qed.

Lemma subprocess_run_refused text cmd w errno :
  exec (fs w) cmd = Refused errno →
  subprocess_run exec text cmd w = (Raise (OSError errno), with_call cmd None w).
Proof. intros H. unfold subprocess_run. now rewrite H. Qed.

(** Without [text=True] nothing is decoded. *)
Lemma subprocess_run_bytes cmd w rc out err f' :
  exec (fs w) cmd = Garbled rc out err f' →
  subprocess_run exec false cmd w
  = (if rc =? 0 then Ret out else Raise (CalledProcessError rc cmd err), ran cmd rc f' w).
Proof. intros H. unfold subprocess_run. rewrite H. now destruct (rc =? 0). Qed.

Lemma subprocess_run_stops cmd w e :
  spawn_stops cmd (exec (fs w) cmd) = Some e →
  subprocess_run exec true cmd w = (Raise e, spawned cmd (exec (fs w) cmd) w).
Proof.
  intros Hs. unfold subprocess_run.
  destruct (exec (fs w) cmd); cbn in Hs; try discriminate Hs;
    injection Hs as <-; reflexivity.
Qed.

Lemma spawn_stops_uncaught cmd r e :
  spawn_stops cmd r = Some e → ∀ rc c err, e ≠ CalledProcessError rc c err.
Proof. intros Hs rc c err ->. destruct r; discriminate Hs. Qed.

Lemma spawn_runs cmd r :
  spawn_stops cmd r = None → ∃ rc out err f', r = Exited rc out err f'.
Proof. destruct r; try discriminate. eauto. Qed.

Lemma get_video_info_exit0 p w out err f' :
  exec (fs w) (ffprobe_cmd p) = Exited 0 out err f' →
  get_video_info exec p w
  = (Ret (Some (PyStr.strip (PyStr.universal_newlines out))), ran (ffprobe_cmd p) 0 f' w).
Proof.
  intros H. unfold get_video_info, try_except.
  now rewrite (bind_ret _ _ _ _ _ (subprocess_run_exit0 true _ _ _ _ _ H)).
Qed.

Lemma get_video_info_fail p w rc out err f' :
  exec (fs w) (ffprobe_cmd p) = Exited rc out err f' → rc ≠ 0 →
  get_video_info exec p w
  = (Ret None, with_print (probe_error_line p rc err) (ran (ffprobe_cmd p) rc f' w)).
Proof.
  intros H Hrc. unfold get_video_info, try_except.
  now rewrite (bind_raise _ _ _ _ _ (subprocess_run_fail true _ _ _ _ _ _ H Hrc)).
Qed.

Lemma get_video_info_stops p w e :
  spawn_stops (ffprobe_cmd p) (exec (fs w) (ffprobe_cmd p)) = Some e →
  get_video_info exec p w
  = (Raise e, spawned (ffprobe_cmd p) (exec (fs w) (ffprobe_cmd p)) w).
Proof.
  intros Hs. unfold get_video_info, try_except.
  rewrite (bind_raise _ _ _ _ _ (subprocess_run_stops _ _ _ Hs)).
  destruct e; try reflexivity.
  now contradiction (spawn_stops_uncaught _ _ _ Hs returncode cmd stderr).
Qed.

Lemma get_video_info_notfound p w :
  exec (fs w) (ffprobe_cmd p) = NotFound →
  get_video_info exec p w
  = (Raise (FileNotFoundError "ffprobe"), with_call (ffprobe_cmd p) None w).
Proof.
  intros H0. rewrite (get_video_info_stops p w (FileNotFoundError "ffprobe"));
    now rewrite H0.
Qed.

Lemma convert_video_exit0 i o w out err f' :
  exec (fs w) (ffmpeg_cmd i o) = Exited 0 out err f' →
  convert_video exec i o w
  = (Ret true,
     with_print ("✓ Successfully converted: " +:+ PyStr.basename i)
       (ran (ffmpeg_cmd i o) 0 f' (converting i w))).
Proof.
  intros H0. unfold convert_video, try_except.
  unfold mbind at 1, M_bind at 1, print at 1.
  rewrite (bind_ret (subprocess_run exec true (ffmpeg_cmd i o)) _
             (PyStr.universal_newlines out) _
             (ran (ffmpeg_cmd i o) 0 f' (converting i w))).
  - reflexivity.
  - now apply (subprocess_run_exit0 true _ _ out err).
Qed.

Lemma convert_video_fail i o w rc out err f' :
  exec (fs w) (ffmpeg_cmd i o) = Exited rc out err f' → rc ≠ 0 →
  convert_video exec i o w
  = (Ret false,
     with_print ("stderr: " +:+ PyStr.universal_newlines err)
       (with_print (convert_error_line i o rc err)
          (ran (ffmpeg_cmd i o) rc f' (converting i w)))).
Proof.
  intros H0 Hrc. unfold convert_video, try_except.
  unfold mbind at 1, M_bind at 1, print at 1.
  rewrite (bind_raise (subprocess_run exec true (ffmpeg_cmd i o)) _
             (CalledProcessError rc (ffmpeg_cmd i o) (PyStr.universal_newlines err)) _
             (ran (ffmpeg_cmd i o) rc f' (converting i w))).
  - reflexivity.
  - now apply (subprocess_run_fail true _ _ _ out).
Qed.

Lemma convert_video_stops i o w e :
  spawn_stops (ffmpeg_cmd i o) (exec (fs w) (ffmpeg_cmd i o)) = Some e →
  convert_video exec i o w
  = (Raise e, spawned (ffmpeg_cmd i o) (exec (fs w) (ffmpeg_cmd i o)) (converting i w)).
Proof.
  intros Hs. unfold convert_video, try_except.
  unfold mbind at 1, M_bind at 1, print at 1.
  rewrite (bind_raise (subprocess_run exec true (ffmpeg_cmd i o)) _ e _
             (spawned (ffmpeg_cmd i o) (exec (fs w) (ffmpeg_cmd i o)) (converting i w))).
  - destruct e; try reflexivity.
    now contradiction (spawn_stops_uncaught _ _ _ Hs returncode cmd stderr).
  - apply (subprocess_run_stops (ffmpeg_cmd i o) (converting i w) e Hs).
Qed.

End Steps.

Section Body.

Context {py : Platform}.

Variable exec : Files → list string → Spawn.

Lemma bind_print {B} line (k : unit → M B) w :
  (print line ≫= k) w = k tt (with_print line w).
Proof. reflexivity. Qed.

Lemma get_video_info_exited p w rc out err f' :
  exec (fs w) (ffprobe_cmd p) = Exited rc out err f' →
  get_video_info exec p w = (Ret (probed_codec rc out), after_probe p rc err f' w).
Proof.
  intros H. unfold probed_codec, after_probe.
  destruct (Z.eqb_spec rc 0) as [->|Hrc].
  - now apply get_video_info_exit0 with err.
  - now apply get_video_info_fail with out.
Qed.

Lemma loop_body_skip p c s w rc out err f' :
  exec (fs w) (ffprobe_cmd p) = Exited rc out err f' →
  probed_codec rc out = Some "h264" →
  loop_body exec p (c, s) w
  = (Ret (c, s + 1), with_print (skip_line p) (after_probe p rc err f' w)).
Proof.
  intros H Hc. unfold loop_body.
  rewrite (bind_ret _ _ _ _ _ (get_video_info_exited _ _ _ _ _ _ H)).
  rewrite Hc, bool_decide_eq_true_2 by reflexivity.
  reflexivity.
Qed.

Lemma loop_body_probe_notfound p cs w :
  exec (fs w) (ffprobe_cmd p) = NotFound →
  loop_body exec p cs w
  = (Raise (FileNotFoundError "ffprobe"), with_call (ffprobe_cmd p) None w).
Proof.
  intros H. destruct cs as [c s]. unfold loop_body.
  now rewrite (bind_raise _ _ _ _ _ (get_video_info_notfound _ _ _ H)).
Qed.

Lemma loop_body_probe_stops p cs w e :
  spawn_stops (ffprobe_cmd p) (exec (fs w) (ffprobe_cmd p)) = Some e →
  loop_body exec p cs w
  = (Raise e, spawned (ffprobe_cmd p) (exec (fs w) (ffprobe_cmd p)) w).
Proof.
  intros Hs. destruct cs as [c s]. unfold loop_body.
  now rewrite (bind_raise _ _ _ _ _ (get_video_info_stops _ _ _ _ Hs)).
Qed.

(** From here on the file does not probe as H.264. *)
Section NotH264.

Variables (p : string) (c s : Z) (w : World).
Variables (rc : Z) (out err : string) (f1 : Files).
Hypothesis Hprobe : exec (fs w) (ffprobe_cmd p) = Exited rc out err f1.
Hypothesis Hcodec : probed_codec rc out ≠ Some "h264".

Local Abbreviation w1 := (at_convert p rc out err f1 w).

Lemma fs_before_convert : fs w1 = f1.
Proof.
  unfold at_convert, before_convert, converting, after_probe.
  destruct (rc =? 0); reflexivity.
Qed.

Lemma loop_body_open :
  loop_body exec p (c, s) w
  = (converted ← convert_video exec p (temp_output p);
     success_count' ←
       (if converted : bool then
          os_replace (temp_output p) p;; mret (c + 1)
        else
          found ← os_path_exists (temp_output p);
          (if found : bool then os_remove (temp_output p) else mret tt);;
          mret c);
     print "";;
     mret (success_count', s))
      (with_print ("Current codec: " +:+ str_codec (probed_codec rc out))
         (after_probe p rc err f1 w)).
Proof.
  unfold loop_body.
  rewrite (bind_ret _ _ _ _ _ (get_video_info_exited _ _ _ _ _ _ Hprobe)).
  rewrite bool_decide_eq_false_2 by exact Hcodec.
  reflexivity.
Qed.

Lemma exec_before_convert cmd : exec (fs w1) cmd = exec f1 cmd.
Proof. now rewrite fs_before_convert. Qed.

Lemma loop_body_converted out2 err2 f2 d :
  exec f1 (ffmpeg_cmd p (temp_output p)) = Exited 0 out2 err2 f2 →
  f2 !! temp_output p = Some d →
  loop_body exec p (c, s) w
  = (Ret (c + 1, s),
     with_print ""
       (with_fs (<[p := d]> (delete (temp_output p) f2)) (after_convert_ok p f2 w1))).
Proof.
  intros H2 Hd. rewrite loop_body_open.
  erewrite bind_ret; cycle 1.
  { apply convert_video_exit0 with (out := out2) (err := err2) (f' := f2).
    rewrite <- H2. apply (exec_before_convert (ffmpeg_cmd p (temp_output p))). }
  cbv beta iota.
  unfold os_replace, mbind, M_bind, mret, M_ret, print.
  change (converting p _) with w1. unfold after_convert_ok at 1, ran at 1, with_fs at 1, with_print at 1.
  cbn [fs]. rewrite Hd. reflexivity.
Qed.

Lemma loop_body_replace_raises out2 err2 f2 :
  exec f1 (ffmpeg_cmd p (temp_output p)) = Exited 0 out2 err2 f2 →
  f2 !! temp_output p = None →
  loop_body exec p (c, s) w
  = (Raise (FileNotFoundError (temp_output p)), after_convert_ok p f2 w1).
Proof.
  intros H2 Hd. rewrite loop_body_open.
  erewrite bind_ret; cycle 1.
  { apply convert_video_exit0 with (out := out2) (err := err2) (f' := f2).
    rewrite <- H2. apply (exec_before_convert (ffmpeg_cmd p (temp_output p))). }
  cbv beta iota.
  unfold os_replace, mbind, M_bind, mret, M_ret, print.
  change (converting p _) with w1. unfold after_convert_ok at 1, ran at 1, with_fs at 1, with_print at 1.
  cbn [fs]. rewrite Hd. reflexivity.
Qed.

Lemma loop_body_failed rc2 out2 err2 f2 :
  exec f1 (ffmpeg_cmd p (temp_output p)) = Exited rc2 out2 err2 f2 →
  rc2 ≠ 0 →
  loop_body exec p (c, s) w
  = (Ret (c, s), with_print "" (cleaned (temp_output p) (after_convert_fail p rc2 err2 f2 w1))).
Proof.
  intros H2 Hrc2. rewrite loop_body_open.
  erewrite bind_ret; cycle 1.
  { apply convert_video_fail with (out := out2) (err := err2) (f' := f2) (rc := rc2);
      [|exact Hrc2].
    rewrite <- H2. apply (exec_before_convert (ffmpeg_cmd p (temp_output p))). }
  cbv beta iota.
  change (with_print ("stderr: " +:+ PyStr.universal_newlines err2) _)
    with (after_convert_fail p rc2 err2 f2 w1).
  unfold cleaned, os_path_exists, os_remove, mbind, M_bind, mret, M_ret, print.
  destruct (fs (after_convert_fail p rc2 err2 f2 w1) !! temp_output p) as [d|] eqn:E.
  - rewrite bool_decide_eq_true_2 by eauto. rewrite E. reflexivity.
  - rewrite bool_decide_eq_false_2 by (intros [? ?]; discriminate). reflexivity.
Qed.

Lemma loop_body_convert_stops e :
  spawn_stops (ffmpeg_cmd p (temp_output p)) (exec f1 (ffmpeg_cmd p (temp_output p)))
  = Some e →
  loop_body exec p (c, s) w
  = (Raise e,
     spawned (ffmpeg_cmd p (temp_output p)) (exec f1 (ffmpeg_cmd p (temp_output p))) w1).
Proof.
  intros Hs. rewrite loop_body_open.
  set (w0 := with_print ("Current codec: " +:+ str_codec (probed_codec rc out))
               (after_probe p rc err f1 w)).
  assert (Hfs : fs w0 = f1) by exact fs_before_convert.
  rewrite <- Hfs in Hs.
  rewrite (bind_raise _ _ _ _ _ (convert_video_stops exec p (temp_output p) w0 e Hs)).
  now rewrite Hfs.
Qed.

End NotH264.

End Body.

(** ** The run as a whole *)

Section Run.

Context {py : Platform}.

Variable exec : Files → list string → Spawn.

Lemma main_eq w :
  main exec w
  = main_from exec (candidates w) w.
Proof.
  unfold main, candidates, glob_glob, mbind, M_bind, mret, M_ret.
  destruct (bool_decide (is_Some (fs w !! video_pattern))); reflexivity.
Qed.

Lemma main_from_nil w :
  main_from exec [] w = (Ret tt, with_print "No video_{scene_id}.mp4 files found!" w).
Proof. reflexivity. Qed.

(** A run whose version probe passes goes into the loop, and prints the
    final block if the loop returns. *)
Lemma main_from_available files w out err f1 :
  files ≠ [] →
  exec (fs w) version_cmd = Exited 0 out err f1 →
  main_from exec files w
  = match process_videos exec files (at_loop files f1 w) with
    | (Ret (c, s), w2) =>
        (Ret tt, with_prints (summary_block c s (Z.of_nat (length files) - c - s)) w2)
    | (Raise e, w2) => (Raise e, w2)
    end.
Proof.
  intros Hne H. unfold main_from.
  rewrite bool_decide_eq_false_2 by exact Hne.
  rewrite bind_print.
  erewrite bind_ret; cycle 1.
  { unfold try_except. erewrite bind_ret; [reflexivity|].
    apply subprocess_run_exit0 with (err := err) (f' := f1). exact H. }
  cbv beta iota. fold (found_line (Z.of_nat (length files))).
  change (ran version_cmd 0 f1 _) with (at_loop files f1 w).
  unfold mbind at 1, M_bind at 1.
  destruct (process_videos exec files (at_loop files f1 w)) as [[[c s]|e] w2];
    [|reflexivity].
  rewrite !bind_print.
  unfold print, with_print, with_prints, summary_block. cbn [fs printed calls hist].
  rewrite <- !app_assoc. reflexivity.
Qed.


(** What [main_from] does on files, by what the version probe meets.
    The probe is run without [text=True], so its output is not decoded. *)
Lemma main_from_unfold files w :
  files ≠ [] →
  let w0 := with_print (found_line (Z.of_nat (length files))) w in
  main_from exec files w
  = match exec (fs w) version_cmd with
    | Exited rc _ _ f1 | Garbled rc _ _ f1 =>
        if rc =? 0 then
          match process_videos exec files (at_loop files f1 w) with
          | (Ret (c, s), w2) =>
              (Ret tt,
               with_prints (summary_block c s (Z.of_nat (length files) - c - s)) w2)
          | (Raise e, w2) => (Raise e, w2)
          end
        else
          (Ret tt,
           with_prints ["Error: ffmpeg is not installed or not in PATH";
                        "Please install ffmpeg: brew install ffmpeg"]
             (ran version_cmd rc f1 w0))
    | NotFound =>
        (Ret tt,
         with_prints ["Error: ffmpeg is not installed or not in PATH";
                      "Please install ffmpeg: brew install ffmpeg"]
           (with_call version_cmd None w0))
    | Refused errno => (Raise (OSError errno), with_call version_cmd None w0)
    end.
Proof.
  intros Hne w0.
  assert (Hpass : ∀ out f1,
            subprocess_run exec false version_cmd w0 = (Ret out, at_loop files f1 w) →
            main_from exec files w
            = match process_videos exec files (at_loop files f1 w) with
              | (Ret (c, s), w2) =>
                  (Ret tt,
                   with_prints (summary_block c s (Z.of_nat (length files) - c - s)) w2)
              | (Raise e, w2) => (Raise e, w2)
              end).
  { intros out f1 Hrun. unfold main_from.
    rewrite bool_decide_eq_false_2 by exact Hne.
    rewrite bind_print.
    erewrite bind_ret; cycle 1.
    { unfold try_except. erewrite bind_ret; [reflexivity | exact Hrun]. }
    cbv beta iota.
    unfold mbind at 1, M_bind at 1.
    destruct (process_videos exec files (at_loop files f1 w)) as [[[c s]|e] w2];
      [|reflexivity].
    rewrite !bind_print.
    unfold print, with_print, with_prints, summary_block. cbn [fs printed calls hist].
    rewrite <- !app_assoc. reflexivity. }
  assert (Hfail : ∀ e w1,
            subprocess_run exec false version_cmd w0 = (Raise e, w1) →
            (∃ rc c err, e = CalledProcessError rc c err) ∨ (∃ name, e = FileNotFoundError name) →
            main_from exec files w
            = (Ret tt,
               with_prints ["Error: ffmpeg is not installed or not in PATH";
                            "Please install ffmpeg: brew install ffmpeg"] w1)).
  { intros e w1 Hrun He. unfold main_from.
    rewrite bool_decide_eq_false_2 by exact Hne.
    rewrite bind_print.
    erewrite bind_ret; cycle 1.
    { unfold try_except. erewrite bind_raise; [|exact Hrun].
      destruct He as [(rc & c & err & ->)|(name & ->)]; cbn; reflexivity. }
    cbn. unfold with_prints, with_print. cbn. now rewrite <- !app_assoc. }
  destruct (exec (fs w) version_cmd) as [|errno|rc out err f1|rc out err f1] eqn:Hv.
  - apply (Hfail (FileNotFoundError (hd EmptyString version_cmd)));
      [now apply subprocess_run_notfound | right; eauto].
  - unfold main_from. rewrite bool_decide_eq_false_2 by exact Hne.
    rewrite bind_print.
    erewrite bind_raise; [reflexivity|].
    unfold try_except.
    rewrite (bind_raise _ _ _ _ _ (subprocess_run_refused exec false version_cmd w0 errno Hv)).
    reflexivity.
  - destruct (Z.eqb_spec rc 0) as [->|Hrc].
    + apply (Hpass out).
      exact (subprocess_run_exit0 exec false version_cmd w0 out err f1 Hv).
    + apply (Hfail (CalledProcessError rc version_cmd err)); [|left; eauto].
      exact (subprocess_run_fail exec false version_cmd w0 rc out err f1 Hv Hrc).
  - pose proof (subprocess_run_bytes exec version_cmd w0 rc out err f1 Hv) as Hrun.
    destruct (Z.eqb_spec rc 0) as [->|Hrc].
    + now apply (Hpass out).
    + apply (Hfail (CalledProcessError rc version_cmd err)); [exact Hrun | left; eauto].
Qed.

End Run.

(** ** What each world remembers *)

Section Fields.

Context {py : Platform}.

Lemma calls_after_probe p rc err f1 w :
  calls (after_probe p rc err f1 w) = calls w ++ [(ffprobe_cmd p, Some rc)].
Proof.
  unfold after_probe. destruct (Z.eqb_spec rc 0) as [->|]; reflexivity.
Qed.

Lemma calls_at_convert p rc out err f1 w :
  calls (at_convert p rc out err f1 w) = calls w ++ [(ffprobe_cmd p, Some rc)].
Proof. unfold at_convert, before_convert. apply calls_after_probe. Qed.

Lemma calls_spawned cmd r w :
  calls (spawned cmd r w) = calls w ++ [(cmd, returncode_of r)].
Proof. now destruct r. Qed.

Lemma printed_spawned cmd r w : printed (spawned cmd r w) = printed w.
Proof. now destruct r. Qed.

Lemma fs_spawned cmd r w : fs (spawned cmd r w) = left_by (fs w) r.
Proof. now destruct r. Qed.

Lemma calls_cleaned tmp w : calls (cleaned tmp w) = calls w.
Proof. unfold cleaned. destruct (fs w !! tmp); reflexivity. Qed.

Lemma printed_cleaned tmp w : printed (cleaned tmp w) = printed w.
Proof. unfold cleaned. destruct (fs w !! tmp); reflexivity. Qed.

Lemma fs_cleaned tmp w : fs (cleaned tmp w) = delete tmp (fs w).
Proof.
  unfold cleaned. destruct (fs w !! tmp) eqn:E; [reflexivity|].
  symmetry. now apply delete_id.
Qed.

Lemma printed_after_probe p rc err f1 w :
  printed (after_probe p rc err f1 w)
  = printed w ++ (if rc =? 0 then [] else [probe_error_line p rc err]).
Proof.
  unfold after_probe. destruct (rc =? 0); cbn; [now rewrite app_nil_r | reflexivity].
Qed.

Lemma printed_at_convert p rc out err f1 w :
  printed (at_convert p rc out err f1 w)
  = printed w ++ (if rc =? 0 then [] else [probe_error_line p rc err])
      ++ ["Current codec: " +:+ str_codec (probed_codec rc out);
          "Converting: " +:+ PyStr.basename p].
Proof.
  unfold at_convert, before_convert, converting. cbn.
  rewrite printed_after_probe, <- !app_assoc. reflexivity.
Qed.

Lemma count_calls_app f a b :
  count_calls f (a ++ b) = count_calls f a + count_calls f b.
Proof. unfold count_calls. rewrite filter_app, length_app. lia. Qed.

Lemma count_calls_cons f x l :
  count_calls f (x :: l) = (if f x then 1 else 0) + count_calls f l.
Proof.
  unfold count_calls. rewrite filter_cons.
  destruct (f x); destruct (decide _) as [E|E]; try discriminate;
    try (exfalso; apply E; reflexivity); cbn [length]; lia.
Qed.

Lemma count_calls_nonneg f l : 0 ≤ count_calls f l.
Proof. unfold count_calls. lia. Qed.

Lemma transcode_ok_probe p r : transcode_ok (ffprobe_cmd p, r) = false.
Proof. reflexivity. Qed.

Lemma transcode_failed_probe p r : transcode_failed (ffprobe_cmd p, r) = false.
Proof. reflexivity. Qed.

Lemma transcode_ok_convert i o rc :
  transcode_ok (ffmpeg_cmd i o, Some rc) = (rc =? 0).
Proof.
  unfold transcode_ok. cbn [fst snd].
  change (is_transcode (ffmpeg_cmd i o)) with true. cbn [andb].
  destruct (Z.eqb_spec rc 0) as [->|Hrc].
  - now apply bool_decide_eq_true_2.
  - apply bool_decide_eq_false_2. congruence.
Qed.

Lemma transcode_failed_convert i o rc :
  transcode_failed (ffmpeg_cmd i o, Some rc) = negb (rc =? 0).
Proof. reflexivity. Qed.

End Fields.

(** ** The loop *)

Section Loop.

Context {py : Platform}.

Variable exec : Files → list string → Spawn.

(** What one iteration that returns has done. *)
Lemma loop_body_ret p c s w c' s' w' :
  loop_body exec p (c, s) w = (Ret (c', s'), w') →
  ∃ new,
    calls w' = calls w ++ new
    ∧ (∃ rc, (ffprobe_cmd p, Some rc) ∈ new)
    ∧ c' = c + count_calls transcode_ok new
    ∧ s' = s + (1 - count_calls transcode_ok new - count_calls transcode_failed new)
    ∧ count_calls transcode_ok new + count_calls transcode_failed new ≤ 1
    ∧ printed w `prefix_of` printed w'.
Proof.
  intros H.
  destruct (spawn_stops (ffprobe_cmd p) (exec (fs w) (ffprobe_cmd p))) as [e|] eqn:Hsp.
  { rewrite (loop_body_probe_stops _ _ _ _ _ Hsp) in H. discriminate. }
  apply spawn_runs in Hsp as (rc & out & err & f1 & Hp).
  destruct (decide (probed_codec rc out = Some "h264")) as [Hc|Hc].
  { rewrite (loop_body_skip _ _ _ _ _ _ _ _ _ Hp Hc) in H.
    injection H as <- <- <-.
    exists [(ffprobe_cmd p, Some rc)]. cbn [calls with_print].
    rewrite calls_after_probe, !count_calls_cons, transcode_ok_probe,
      transcode_failed_probe.
    change (count_calls _ []) with 0.
    repeat split; try lia.
    - exists rc. apply list_elem_of_here.
    - cbn [printed with_print]. rewrite printed_after_probe, <- app_assoc. now eexists. }
  destruct (spawn_stops (ffmpeg_cmd p (temp_output p))
              (exec f1 (ffmpeg_cmd p (temp_output p)))) as [e|] eqn:Hsx.
  { rewrite (loop_body_convert_stops _ _ _ _ _ _ _ _ _ Hp Hc _ Hsx) in H.
    discriminate. }
  apply spawn_runs in Hsx as (rc2 & out2 & err2 & f2 & Hx).
  destruct (decide (rc2 = 0)) as [->|Hrc2].
  - destruct (f2 !! temp_output p) as [d|] eqn:Hd.
    + rewrite (loop_body_converted _ _ _ _ _ _ _ _ _ Hp Hc _ _ _ _ Hx Hd) in H.
      injection H as <- <- <-.
      exists [(ffprobe_cmd p, Some rc); (ffmpeg_cmd p (temp_output p), Some 0)].
      cbn [calls with_print with_fs after_convert_ok ran with_call].
      rewrite calls_at_convert, !count_calls_cons, transcode_ok_probe,
        transcode_failed_probe, transcode_ok_convert, transcode_failed_convert.
      change (count_calls _ []) with 0. cbn [Z.eqb negb].
      rewrite <- app_assoc.
      repeat split; try lia.
      * exists rc. apply list_elem_of_here.
      * cbn [printed with_print with_fs after_convert_ok ran with_call].
        rewrite printed_at_convert, <- !app_assoc. now eexists.
    + rewrite (loop_body_replace_raises _ _ _ _ _ _ _ _ _ Hp Hc _ _ _ Hx Hd) in H.
      discriminate.
  - rewrite (loop_body_failed _ _ _ _ _ _ _ _ _ Hp Hc _ _ _ _ Hx Hrc2) in H.
    injection H as <- <- <-.
    exists [(ffprobe_cmd p, Some rc); (ffmpeg_cmd p (temp_output p), Some rc2)].
    cbn [calls with_print]. rewrite calls_cleaned.
    cbn [calls with_print with_fs after_convert_fail ran with_call].
    rewrite calls_at_convert, !count_calls_cons, transcode_ok_probe,
      transcode_failed_probe, transcode_ok_convert, transcode_failed_convert.
    change (count_calls _ []) with 0.
    destruct (Z.eqb_spec rc2 0); [contradiction|]. cbn [negb].
    rewrite <- app_assoc.
    repeat split; try lia.
    * exists rc. apply list_elem_of_here.
    * cbn [printed with_print]. rewrite printed_cleaned.
      cbn [printed after_convert_fail with_print ran with_fs with_call].
      rewrite printed_at_convert, <- !app_assoc. now eexists.
Qed.

(** With binaries that run to an exit and a transcoder that leaves its
    output, an iteration returns. *)
Lemma loop_body_returns p c s w :
  responsive exec → leaves_output exec →
  ∃ c' s' w', loop_body exec p (c, s) w = (Ret (c', s'), w').
Proof.
  intros [Hprobe Hconv] Hout.
  destruct (Hprobe (fs w) p) as (rc & out & err & f1 & Hp).
  destruct (decide (probed_codec rc out = Some "h264")) as [Hc|Hc].
  { rewrite (loop_body_skip _ _ _ _ _ _ _ _ _ Hp Hc). eauto. }
  destruct (Hconv f1 p (temp_output p)) as (rc2 & out2 & err2 & f2 & Hx).
  destruct (decide (rc2 = 0)) as [->|Hrc2].
  - destruct (Hout _ _ _ _ _ _ Hx) as [d Hd].
    rewrite (loop_body_converted _ _ _ _ _ _ _ _ _ Hp Hc _ _ _ _ Hx Hd). eauto.
  - rewrite (loop_body_failed _ _ _ _ _ _ _ _ _ Hp Hc _ _ _ _ Hx Hrc2). eauto.
Qed.

Lemma for_each_returns files :
  responsive exec → leaves_output exec →
  ∀ c s w, ∃ c' s' w', for_each files (loop_body exec) (c, s) w = (Ret (c', s'), w').
Proof.
  intros Hi Ho. induction files as [|p files IH]; intros c s w.
  - cbn. eauto.
  - destruct (loop_body_returns p c s w Hi Ho) as (c1 & s1 & w1 & E).
    rewrite (for_each_cons _ _ _ _ _ _ _ E). apply IH.
Qed.

(** What a loop that returns has done. *)
Lemma for_each_ret files :
  ∀ c s w c' s' w',
    for_each files (loop_body exec) (c, s) w = (Ret (c', s'), w') →
    ∃ new,
      calls w' = calls w ++ new
      ∧ (∀ p, p ∈ files → ∃ rc, (ffprobe_cmd p, Some rc) ∈ new)
      ∧ c' = c + count_calls transcode_ok new
      ∧ s' = s + (Z.of_nat (length files)
                  - count_calls transcode_ok new - count_calls transcode_failed new)
      ∧ count_calls transcode_ok new + count_calls transcode_failed new
        ≤ Z.of_nat (length files)
      ∧ printed w `prefix_of` printed w'.
Proof.
  induction files as [|p files IH]; intros c s w c' s' w' H.
  - cbn in H. injection H as <- <- <-. exists [].
    rewrite app_nil_r. change (count_calls _ []) with 0. cbn [length].
    repeat split; try lia; [|reflexivity].
    intros q Hq. now apply elem_of_nil in Hq.
  - cbn [for_each] in H. unfold mbind, M_bind in H.
    destruct (loop_body exec p (c, s) w) as [[[c1 s1]|e] w1] eqn:E; [|discriminate].
    apply loop_body_ret in E as (n1 & Hc1 & Hp1 & -> & -> & Hle1 & Hpr1).
    apply IH in H as (n2 & Hc2 & Hp2 & -> & -> & Hle2 & Hpr2).
    exists (n1 ++ n2). rewrite Hc2, Hc1, <- app_assoc, !count_calls_app.
    cbn [length]. repeat split; try lia.
    + intros q Hq. apply elem_of_cons in Hq as [->|Hq].
      * destruct Hp1 as [rc Hrc]. exists rc. apply elem_of_app. now left.
      * destruct (Hp2 q Hq) as [rc Hrc]. exists rc. apply elem_of_app. now right.
    + now transitivity (printed w1).
Qed.

End Loop.

(** ** Discovery and the preflight check *)

Section Preflight.

Context {py : Platform}.

Variable exec : Files → list string → Spawn.

Lemma candidates_none w : fs w !! video_pattern = None → candidates w = [].
Proof.
  intros H. unfold candidates.
  rewrite bool_decide_eq_false_2; [reflexivity|].
  rewrite H. intros [? ?]. discriminate.
Qed.

Lemma candidates_some w : is_Some (fs w !! video_pattern) → candidates w = [video_pattern].
Proof. intros H. unfold candidates. now rewrite bool_decide_eq_true_2. Qed.

Lemma summary_block_length c s f : length (summary_block c s f) = 6%nat.
Proof. reflexivity. Qed.

Lemma no_summary_in_one_line line c s f : ¬ prints_summary [line] c s f.
Proof.
  intros [pre H]. apply (f_equal length) in H.
  rewrite length_app, summary_block_length in H. cbn in H. lia.
Qed.

(** C2, as amended.  When the pattern matches no file, [main] returns
    normally after printing the one line that says so: it spawns no
    process, changes no file, and prints no final block, so no count is
    reported at all. *)
Theorem no_candidates_ends_cleanly w :
  fs w !! video_pattern = None →
  main exec w = (Ret tt, with_print "No video_{scene_id}.mp4 files found!" w)
  ∧ new_lines w (final (main exec w)) = ["No video_{scene_id}.mp4 files found!"]
  ∧ (∀ c s f, ¬ prints_summary (new_lines w (final (main exec w))) c s f)
  ∧ fs (final (main exec w)) = fs w
  ∧ calls (final (main exec w)) = calls w
  ∧ hist (final (main exec w)) = hist w.
Proof.
  intros H. rewrite main_eq, (candidates_none _ H), main_from_nil.
  unfold final, new_lines. cbn [snd with_print printed fs calls hist].
  rewrite drop_app_length.
  repeat split. intros c s f. apply no_summary_in_one_line.
Qed.

(** C10.  Discovery comes first: when the pattern matches no file, [main]
    returns after the "no files" line whatever the binaries would do, the
    version probe is never spawned and the "ffmpeg is not installed"
    message is never printed, also when no binary is installed. *)
Theorem discovery_precedes_preflight w :
  fs w !! video_pattern = None →
  ending (main exec w) = Ret tt
  ∧ new_calls w (final (main exec w)) = []
  ∧ new_lines w (final (main exec w)) = ["No video_{scene_id}.mp4 files found!"]
  ∧ ("Error: ffmpeg is not installed or not in PATH"
       ∉ new_lines w (final (main exec w)))
  ∧ (exec (fs w) version_cmd = NotFound →
     ∀ r, (version_cmd, r) ∉ new_calls w (final (main exec w))).
Proof.
  intros H. rewrite main_eq, (candidates_none _ H), main_from_nil.
  unfold ending, final, new_lines, new_calls.
  cbn [fst snd with_print printed calls].
  rewrite drop_app_length, drop_all.
  repeat split.
  - intros Hin. apply list_elem_of_singleton in Hin. discriminate.
  - intros _ r Hin. now apply elem_of_nil in Hin.
Qed.


End Preflight.

(** ** Files that are skipped, and a prober that is missing *)

Section Skipping.

Context {py : Platform}.

Variable exec : Files → list string → Spawn.

Lemma fs_at_loop files f1 w : fs (at_loop files f1 w) = f1.
Proof. reflexivity. Qed.

(** C9.  With the transcoder installed and the prober absent from [PATH],
    the version probe (a call of [ffmpeg]) passes, the first call of
    [get_video_info] raises [FileNotFoundError], its handler does not
    catch it, and the exception leaves [main]: no further file is looked
    at and no final block is printed. *)
Theorem missing_prober_aborts_run p rest w out err f1 :
  exec (fs w) version_cmd = Exited 0 out err f1 →
  exec f1 (ffprobe_cmd p) = NotFound →
  let w1 := at_loop (p :: rest) f1 w in
  let w' := with_call (ffprobe_cmd p) None w1 in
  hd EmptyString version_cmd = "ffmpeg"
  ∧ get_video_info exec p w1 = (Raise (FileNotFoundError "ffprobe"), w')
  ∧ main_from exec (p :: rest) w = (Raise (FileNotFoundError "ffprobe"), w')
  ∧ (candidates w = p :: rest →
     main exec w = (Raise (FileNotFoundError "ffprobe"), w'))
  ∧ new_calls w w' = [(version_cmd, Some 0); (ffprobe_cmd p, None)]
  ∧ new_lines w w' = [found_line (Z.of_nat (length (p :: rest)))].
Proof.
  intros Hv Hp w1 w'.
  assert (Hmain : main_from exec (p :: rest) w = (Raise (FileNotFoundError "ffprobe"), w')).
  { rewrite (main_from_available exec (p :: rest) w out err f1) by (discriminate || exact Hv).
    unfold process_videos.
    erewrite for_each_raise; [reflexivity|].
    apply loop_body_probe_notfound. exact Hp. }
  split; [reflexivity|]. split; [|split; [exact Hmain|split]].
  - apply get_video_info_notfound. exact Hp.
  - intros Hc. rewrite main_eq, Hc. exact Hmain.
  - unfold new_calls, new_lines, w', w1, at_loop, ran.
    cbn [calls printed with_call with_fs with_print].
    rewrite <- app_assoc, !drop_app_length. split; reflexivity.
Qed.

Lemma skip_world p err f1 w :
  with_print (skip_line p) (after_probe p 0 err f1 w)
  = mkWorld f1 (printed w ++ [skip_line p]) (calls w ++ [(ffprobe_cmd p, Some 0)])
      (hist w ++ [f1]).
Proof. reflexivity. Qed.

Lemma loop_body_skips p c s w out err f1 :
  exec (fs w) (ffprobe_cmd p) = Exited 0 out err f1 →
  PyStr.strip out = "h264" →
  loop_body exec p (c, s) w
  = (Ret (c, s + 1),
     mkWorld f1 (printed w ++ [skip_line p]) (calls w ++ [(ffprobe_cmd p, Some 0)])
       (hist w ++ [f1])).
Proof.
  intros Hp Hs.
  rewrite (loop_body_skip exec p c s w 0 out err f1 Hp).
  - now rewrite skip_world.
  - unfold probed_codec. cbn [Z.eqb]. now rewrite (strip_h264 out Hs).
Qed.

(** C6.  A file whose probe prints the target codec is skipped: the
    iteration adds one to the skip count and nothing to the success count,
    prints the "Skipping" line, spawns the prober and nothing else (so no
    transcoder), and performs no file operation: the file system is the
    one the prober left, the one of before for a prober that only
    reads.  The loop then goes on with the next file. *)
Theorem target_codec_is_skipped p rest c s w out err f1 :
  exec (fs w) (ffprobe_cmd p) = Exited 0 out err f1 →
  PyStr.strip out = "h264" →
  let w' := mkWorld f1 (printed w ++ [skip_line p])
              (calls w ++ [(ffprobe_cmd p, Some 0)]) (hist w ++ [f1]) in
  loop_body exec p (c, s) w = (Ret (c, s + 1), w')
  ∧ (∀ cmd r, (cmd, r) ∈ new_calls w w' → is_transcode cmd = false)
  ∧ (read_only exec (ffprobe_cmd p) → fs w' = fs w)
  ∧ for_each (p :: rest) (loop_body exec) (c, s) w
    = for_each rest (loop_body exec) (c, s + 1) w'.
Proof.
  intros Hp Hs w'.
  assert (Hbody : loop_body exec p (c, s) w = (Ret (c, s + 1), w'))
    by now apply loop_body_skips with out err.
  split; [exact Hbody|]. split; [|split].
  - intros cmd r Hin. unfold new_calls, w' in Hin. cbn [calls] in Hin.
    rewrite drop_app_length in Hin.
    apply list_elem_of_singleton in Hin. injection Hin as -> _. reflexivity.
  - intros Hro. cbn [fs w']. specialize (Hro (fs w)). now rewrite Hp in Hro.
  - now apply for_each_cons.
Qed.

Lemma world_eta w : mkWorld (fs w) (printed w) (calls w) (hist w) = w.
Proof. now destruct w. Qed.

(** A loop over files that all probe as H.264, with a prober that only
    reads. *)
Lemma for_each_all_skip files :
  ∀ c s w,
    (∀ p, p ∈ files →
       ∃ out err, exec (fs w) (ffprobe_cmd p) = Exited 0 out err (fs w)
                  ∧ PyStr.strip out = "h264") →
    for_each files (loop_body exec) (c, s) w
    = (Ret (c, s + Z.of_nat (length files)),
       mkWorld (fs w) (printed w ++ map skip_line files)
         (calls w ++ map (λ p, (ffprobe_cmd p, Some 0)) files)
         (hist w ++ replicate (length files) (fs w))).
Proof.
  induction files as [|p files IH]; intros c s w Hall.
  - cbn. rewrite !app_nil_r, Z.add_0_r, world_eta. reflexivity.
  - destruct (Hall p) as (out & err & Hp & Hs); [apply list_elem_of_here|].
    rewrite (for_each_cons _ _ _ _ _ _ _ (loop_body_skips p c s w out err (fs w) Hp Hs)), IH.
    + cbn [fs printed calls hist map replicate length].
      rewrite <- !app_assoc.
      replace (s + 1 + Z.of_nat (length files)) with (s + Z.of_nat (S (length files)))
        by lia.
      reflexivity.
    + intros q Hq. cbn [fs]. apply Hall. now apply list_elem_of_further.
Qed.

End Skipping.

(** ** Files that are handed to the transcoder *)

Section Transcoding.

Context {py : Platform}.

Variable exec : Files → list string → Spawn.

(** An iteration whose probe did not give H.264 and whose transcoder
    ran to an exit: what it returns, spawns, prints and leaves on disk. *)
Lemma loop_body_transcodes p c s w rc out err f1 rc2 out2 err2 f2 :
  exec (fs w) (ffprobe_cmd p) = Exited rc out err f1 →
  probed_codec rc out ≠ Some "h264" →
  exec f1 (ffmpeg_cmd p (temp_output p)) = Exited rc2 out2 err2 f2 →
  (rc2 = 0 → is_Some (f2 !! temp_output p)) →
  ∃ w',
    loop_body exec p (c, s) w = (Ret (if rc2 =? 0 then c + 1 else c, s), w')
    ∧ calls w' = calls w ++ [(ffprobe_cmd p, Some rc);
                             (ffmpeg_cmd p (temp_output p), Some rc2)]
    ∧ printed w'
      = printed w ++ (if rc =? 0 then [] else [probe_error_line p rc err])
          ++ ["Current codec: " +:+ str_codec (probed_codec rc out);
              "Converting: " +:+ PyStr.basename p]
          ++ (if rc2 =? 0 then ["✓ Successfully converted: " +:+ PyStr.basename p]
              else [convert_error_line p (temp_output p) rc2 err2;
                    "stderr: " +:+ PyStr.universal_newlines err2])
          ++ [""]
    ∧ fs w' = (if rc2 =? 0
               then match f2 !! temp_output p with
                    | Some d => <[p := d]> (delete (temp_output p) f2)
                    | None => f2
                    end
               else delete (temp_output p) f2).
Proof.
  intros Hp Hc Hx Hout.
  destruct (Z.eqb_spec rc2 0) as [->|Hrc2].
  - destruct (Hout eq_refl) as [d Hd].
    eexists. split.
    { apply (loop_body_converted exec p c s w rc out err f1 Hp Hc out2 err2 f2 d Hx Hd). }
    cbn [calls printed fs with_print with_fs after_convert_ok ran with_call].
    rewrite calls_at_convert, printed_at_convert, Hd, <- !app_assoc.
    repeat split.
  - eexists. split.
    { apply (loop_body_failed exec p c s w rc out err f1 Hp Hc rc2 out2 err2 f2 Hx Hrc2). }
    cbn [calls printed fs with_print].
    rewrite calls_cleaned, printed_cleaned, fs_cleaned.
    cbn [calls printed fs with_print with_fs after_convert_fail ran with_call].
    rewrite calls_at_convert, printed_at_convert, <- !app_assoc.
    repeat split.
Qed.

Lemma probed_codec_other rc out :
  rc ≠ 0 ∨ PyStr.strip (PyStr.universal_newlines out) ≠ "h264" →
  probed_codec rc out ≠ Some "h264".
Proof.
  unfold probed_codec. intros [H|H]; destruct (Z.eqb_spec rc 0); congruence.
Qed.

(** An iteration on a file that did not probe as H.264, whatever the
    transcoder meets: the two commands it spawns, the lines it starts with,
    and how it ends. *)
Lemma loop_body_not_h264 p c s w rc out err f1 :
  exec (fs w) (ffprobe_cmd p) = Exited rc out err f1 →
  probed_codec rc out ≠ Some "h264" →
  ∃ r w' l,
    loop_body exec p (c, s) w = (r, w')
    ∧ calls w' = calls w ++ [(ffprobe_cmd p, Some rc);
                             (ffmpeg_cmd p (temp_output p),
                              returncode_of (exec f1 (ffmpeg_cmd p (temp_output p))))]
    ∧ printed w'
      = printed w ++ (if rc =? 0 then [] else [probe_error_line p rc err]) ++ l
    ∧ r = match exec f1 (ffmpeg_cmd p (temp_output p)) with
          | Exited rc2 _ _ f2 =>
              if rc2 =? 0
              then match f2 !! temp_output p with
                   | Some _ => Ret (c + 1, s)
                   | None => Raise (FileNotFoundError (temp_output p))
                   end
              else Ret (c, s)
          | NotFound => Raise (FileNotFoundError "ffmpeg")
          | Refused errno => Raise (OSError errno)
          | Garbled _ _ _ _ => Raise UnicodeDecodeError
          end.
Proof.
  intros Hp Hc.
  assert (Hstop : ∀ e,
            spawn_stops (ffmpeg_cmd p (temp_output p))
              (exec f1 (ffmpeg_cmd p (temp_output p))) = Some e →
            ∃ w' l,
              loop_body exec p (c, s) w = (Raise e, w')
              ∧ calls w' = calls w ++ [(ffprobe_cmd p, Some rc);
                                       (ffmpeg_cmd p (temp_output p),
                                        returncode_of (exec f1 (ffmpeg_cmd p (temp_output p))))]
              ∧ printed w'
                = printed w ++ (if rc =? 0 then [] else [probe_error_line p rc err]) ++ l).
  { intros e He. eexists. eexists. split.
    { apply (loop_body_convert_stops exec p c s w rc out err f1 Hp Hc e He). }
    rewrite calls_spawned, printed_spawned, calls_at_convert, printed_at_convert,
      <- !app_assoc.
    split; reflexivity. }
  destruct (exec f1 (ffmpeg_cmd p (temp_output p))) as [|errno|rc2 out2 err2 f2|rc2 out2 err2 f2]
    eqn:Hx.
  - destruct (Hstop _ eq_refl) as (w' & l & H1 & H2 & H3).
    eexists. exists w', l. split; [exact H1|]. split; [exact H2|]. split; [exact H3|reflexivity].
  - destruct (Hstop _ eq_refl) as (w' & l & H1 & H2 & H3).
    eexists. exists w', l. split; [exact H1|]. split; [exact H2|]. split; [exact H3|reflexivity].
  - destruct (Z.eqb_spec rc2 0) as [->|Hrc2]; cycle 1.
    { destruct (loop_body_transcodes p c s w rc out err f1 rc2 out2 err2 f2 Hp Hc Hx)
        as (w' & Hbody & Hcalls & Hprinted & _); [intros; contradiction|].
      destruct (Z.eqb_spec rc2 0); [contradiction|].
      eexists. exists w'. eexists. split; [exact Hbody|]. split; [exact Hcalls|].
      split; [exact Hprinted | reflexivity]. }
    destruct (f2 !! temp_output p) as [d|] eqn:Hd.
    + destruct (loop_body_transcodes p c s w rc out err f1 0 out2 err2 f2 Hp Hc Hx)
        as (w' & Hbody & Hcalls & Hprinted & _); [eauto|].
      eexists. exists w'. eexists. split; [exact Hbody|]. split; [exact Hcalls|].
      split; [exact Hprinted | reflexivity].
    + eexists. eexists. eexists. split.
      { apply (loop_body_replace_raises exec p c s w rc out err f1 Hp Hc out2 err2 f2 Hx Hd). }
      cbn [calls printed with_print with_fs after_convert_ok ran with_call].
      rewrite calls_at_convert, printed_at_convert, <- !app_assoc.
      repeat split.
  - destruct (Hstop _ eq_refl) as (w' & l & H1 & H2 & H3).
    eexists. exists w', l. split; [exact H1|]. split; [exact H2|]. split; [exact H3|reflexivity].
Qed.

(** C1, as amended.  A file whose probe exits with an error, or prints
    text other than the target codec, has the error of the failed probe
    printed and is not set aside: the transcoder is spawned on it, and the
    transcoder alone decides how the iteration ends.  The file stays among
    the failed ones when the transcoder exits with an error and counts as
    converted when it exits with 0 and its output file is there; in both
    cases the loop goes on with the next file.  When the transcoder exits
    with 0 without an output file, cannot be started, or writes output
    that does not decode, an exception ends the loop.  Second part: a probe
    whose output does not decode ends the loop with [UnicodeDecodeError],
    nothing printed and no transcoder spawned. *)
Theorem failed_probe_still_transcodes :
  (∀ p rest c s w rc out err f1,
     exec (fs w) (ffprobe_cmd p) = Exited rc out err f1 →
     rc ≠ 0 ∨ PyStr.strip (PyStr.universal_newlines out) ≠ "h264" →
     let tmp := temp_output p in
     ∃ r w',
       loop_body exec p (c, s) w = (r, w')
       ∧ (rc ≠ 0 → probe_error_line p rc err ∈ new_lines w w')
       ∧ new_calls w w'
         = [(ffprobe_cmd p, Some rc);
            (ffmpeg_cmd p tmp, returncode_of (exec f1 (ffmpeg_cmd p tmp)))]
       ∧ r = match exec f1 (ffmpeg_cmd p tmp) with
             | Exited rc2 _ _ f2 =>
                 if rc2 =? 0
                 then match f2 !! tmp with
                      | Some _ => Ret (c + 1, s)
                      | None => Raise (FileNotFoundError tmp)
                      end
                 else Ret (c, s)
             | NotFound => Raise (FileNotFoundError "ffmpeg")
             | Refused errno => Raise (OSError errno)
             | Garbled _ _ _ _ => Raise UnicodeDecodeError
             end
       ∧ for_each (p :: rest) (loop_body exec) (c, s) w
         = match r with
           | Ret counts => for_each rest (loop_body exec) counts w'
           | Raise e => (Raise e, w')
           end)
  ∧ (∀ p rest c s w rc out err f1,
       exec (fs w) (ffprobe_cmd p) = Garbled rc out err f1 →
       let w' := ran (ffprobe_cmd p) rc f1 w in
       get_video_info exec p w = (Raise UnicodeDecodeError, w')
       ∧ for_each (p :: rest) (loop_body exec) (c, s) w = (Raise UnicodeDecodeError, w')
       ∧ new_lines w w' = []
       ∧ new_calls w w' = [(ffprobe_cmd p, Some rc)]).
Proof.
  split.
  - intros p rest c s w rc out err f1 Hp Hc tmp. apply probed_codec_other in Hc.
    destruct (loop_body_not_h264 p c s w rc out err f1 Hp Hc)
      as (r & w' & l & Hbody & Hcalls & Hprinted & Hr).
    exists r, w'. split; [exact Hbody|]. split; [|split; [|split; [exact Hr|]]].
    + intros Hrc. unfold new_lines. rewrite Hprinted, drop_app_length.
      destruct (Z.eqb_spec rc 0); [contradiction|]. apply list_elem_of_here.
    + unfold new_calls. now rewrite Hcalls, drop_app_length.
    + destruct r as [counts|e].
      * now apply for_each_cons.
      * now apply for_each_raise.
  - intros p rest c s w rc out err f1 Hp w'.
    assert (Hs : spawn_stops (ffprobe_cmd p) (exec (fs w) (ffprobe_cmd p))
                 = Some UnicodeDecodeError) by now rewrite Hp.
    split; [|split; [|split]].
    + rewrite (get_video_info_stops exec p w _ Hs). now rewrite Hp.
    + rewrite (for_each_raise _ _ _ _ _ _ _ (loop_body_probe_stops exec p (c, s) w _ Hs)).
      now rewrite Hp.
    + unfold new_lines, w'. cbn [printed ran with_fs with_call]. apply drop_all.
    + unfold new_calls, w'. cbn [calls ran with_fs with_call].
      now rewrite drop_app_length.
Qed.

(** A run whose loop returns: what [main] then prints, and what the
    counts count. *)
Lemma main_from_after_loop files w out err f1 c s w2 :
  files ≠ [] →
  exec (fs w) version_cmd = Exited 0 out err f1 →
  process_videos exec files (at_loop files f1 w) = (Ret (c, s), w2) →
  let total := Z.of_nat (length files) in
  let w' := with_prints (summary_block c s (total - c - s)) w2 in
  main_from exec files w = (Ret tt, w')
  ∧ new_lines w w'
    = found_line total :: new_lines (at_loop files f1 w) w2
        ++ summary_block c s (total - c - s)
  ∧ (∀ p, p ∈ files → ∃ rc, (ffprobe_cmd p, Some rc) ∈ new_calls w w')
  ∧ c = count_calls transcode_ok (new_calls w w')
  ∧ total - c - s = count_calls transcode_failed (new_calls w w')
  ∧ 0 ≤ c ∧ 0 ≤ s ∧ 0 ≤ total - c - s.
Proof.
  intros Hne Hv Hloop total w'.
  split.
  { rewrite (main_from_available exec files w out err f1 Hne Hv), Hloop. reflexivity. }
  apply for_each_ret in Hloop as (new & Hcalls & Hprobed & -> & -> & Hle & [l Hpr]).
  pose proof (count_calls_nonneg transcode_ok new).
  pose proof (count_calls_nonneg transcode_failed new).
  assert (Hnc : ∀ blk, new_calls w (with_prints blk w2) = (version_cmd, Some 0) :: new).
  { intros blk. unfold new_calls. cbn [calls with_prints]. rewrite Hcalls.
    cbn [calls at_loop ran with_fs with_call with_print].
    now rewrite <- app_assoc, drop_app_length. }
  assert (Hloop_lines : new_lines (at_loop files f1 w) w2 = l).
  { unfold new_lines. now rewrite Hpr, drop_app_length. }
  assert (Hnl : ∀ blk, new_lines w (with_prints blk w2)
                       = found_line total :: l ++ blk).
  { intros blk. unfold new_lines. cbn [printed with_prints]. rewrite Hpr.
    cbn [printed at_loop ran with_fs with_call with_print].
    now rewrite <- !app_assoc, drop_app_length. }
  subst w'. rewrite Hnc, Hnl, Hloop_lines, !count_calls_cons.
  change (transcode_ok (version_cmd, Some 0)) with false.
  change (transcode_failed (version_cmd, Some 0)) with false.
  unfold total.
  repeat split; try lia.
  intros p Hp. destruct (Hprobed p Hp) as [rc Hrc]. exists rc.
  now apply list_elem_of_further.
Qed.

(** With binaries that run to an exit and a transcoder that leaves its
    output the loop returns, whatever the files. *)
Lemma main_from_completes files w out err f1 :
  files ≠ [] →
  responsive exec → leaves_output exec →
  exec (fs w) version_cmd = Exited 0 out err f1 →
  ∃ c s w',
    main_from exec files w = (Ret tt, w')
    ∧ (∀ p, p ∈ files → ∃ rc, (ffprobe_cmd p, Some rc) ∈ new_calls w w')
    ∧ prints_summary (new_lines w w') c s
        (count_calls transcode_failed (new_calls w w')).
Proof.
  intros Hne Hi Ho Hv.
  destruct (for_each_returns exec files Hi Ho 0 0 (at_loop files f1 w))
    as (c & s & w2 & Hloop).
  destruct (main_from_after_loop files w out err f1 c s w2 Hne Hv Hloop)
    as (Hmain & Hlines & Hprobed & _ & Hfailed & _).
  exists c, s. eexists. split; [exact Hmain|]. split; [exact Hprobed|].
  rewrite <- Hfailed, Hlines.
  exists (found_line (Z.of_nat (length files)) :: new_lines (at_loop files f1 w) w2).
  reflexivity.
Qed.

(** C8, as amended.  Once the loop over the files has returned, [main]
    ends with the final block of six lines, which reports the success
    count, the skip count and a failed count that is the number of files
    minus those two, and nothing else: the number of files is not in it.
    That number is printed once, in the "Found" line, the first line of
    the run, before the version probe.  The success count is the number of
    transcoder runs that exited with 0, the failed count the number of
    those that exited with another status, and no count is negative.
    With binaries that run to an exit and a transcoder that leaves its
    output, the loop does return. *)
Theorem summary_reports_counts files w out err f1 :
  files ≠ [] →
  exec (fs w) version_cmd = Exited 0 out err f1 →
  let total := Z.of_nat (length files) in
  (∀ c s w2,
     process_videos exec files (at_loop files f1 w) = (Ret (c, s), w2) →
     let w' := final (main_from exec files w) in
     ending (main_from exec files w) = Ret tt
     ∧ new_lines w (at_loop files f1 w) = [found_line total]
     ∧ new_lines w w'
       = found_line total :: new_lines (at_loop files f1 w) w2
           ++ [nl +:+ str_mul "=" 50;
               "Conversion complete!";
               "  Successfully converted: " +:+ str_int c;
               "  Skipped (already H.264): " +:+ str_int s;
               "  Failed: " +:+ str_int (total - c - s);
               str_mul "=" 50]
     ∧ c = count_calls transcode_ok (new_calls w w')
     ∧ total - c - s = count_calls transcode_failed (new_calls w w')
     ∧ 0 ≤ c ∧ 0 ≤ s ∧ 0 ≤ total - c - s)
  ∧ (responsive exec → leaves_output exec →
     ∃ c s w2, process_videos exec files (at_loop files f1 w) = (Ret (c, s), w2)).
Proof.
  intros Hne Hv total. split.
  - intros c s w2 Hloop w'.
    destruct (main_from_after_loop files w out err f1 c s w2 Hne Hv Hloop)
      as (H1 & H2 & _ & H4).
    unfold w', ending, final. rewrite H1. cbn [fst snd].
    split; [reflexivity|]. split; [|split; [exact H2 | exact H4]].
    unfold new_lines. cbn [printed at_loop ran with_fs with_call with_print].
    now rewrite drop_app_length.
  - intros Hi Ho. apply (for_each_returns exec files Hi Ho).
Qed.

(** C4, as amended.  First part: when the transcoder exits with an error
    on a file, the iteration deletes the temporary file if it is there,
    leaves both counts as they were (so the file is among the failed
    ones), prints the transcoder's error and its [stderr], and the loop
    goes on with the next file.  Second part: when the version probe
    passes, every run of the prober and of the transcoder is started, exits
    and writes output that decodes, and the transcoder leaves its output
    file whenever it exits with 0, a run over any files probes every one of
    them and ends with the final block, whose failed count is the number
    of transcoder runs that exited with an error, so 1 when exactly one
    did.  A failed probe is not counted by itself. *)
Theorem transcode_failure_is_isolated :
  (∀ p rest c s w rc out err f1 rc2 out2 err2 f2,
     exec (fs w) (ffprobe_cmd p) = Exited rc out err f1 →
     probed_codec rc out ≠ Some "h264" →
     exec f1 (ffmpeg_cmd p (temp_output p)) = Exited rc2 out2 err2 f2 →
     rc2 ≠ 0 →
     ∃ w',
       loop_body exec p (c, s) w = (Ret (c, s), w')
       ∧ fs w' = delete (temp_output p) f2
       ∧ fs w' !! temp_output p = None
       ∧ convert_error_line p (temp_output p) rc2 err2 ∈ new_lines w w'
       ∧ ("stderr: " +:+ PyStr.universal_newlines err2) ∈ new_lines w w'
       ∧ for_each (p :: rest) (loop_body exec) (c, s) w
         = for_each rest (loop_body exec) (c, s) w')
  ∧ (∀ files w out err f1,
       files ≠ [] →
       responsive exec → leaves_output exec →
       exec (fs w) version_cmd = Exited 0 out err f1 →
       ∃ c s w',
         main_from exec files w = (Ret tt, w')
         ∧ (∀ p, p ∈ files → ∃ rc, (ffprobe_cmd p, Some rc) ∈ new_calls w w')
         ∧ prints_summary (new_lines w w') c s
             (count_calls transcode_failed (new_calls w w'))
         ∧ (count_calls transcode_failed (new_calls w w') = 1 →
            prints_summary (new_lines w w') c s 1)).
Proof.
  split.
  - intros p rest c s w rc out err f1 rc2 out2 err2 f2 Hp Hc Hx Hrc2.
    destruct (loop_body_transcodes p c s w rc out err f1 rc2 out2 err2 f2 Hp Hc Hx)
      as (w' & Hbody & _ & Hprinted & Hfs); [intros; contradiction|].
    destruct (Z.eqb_spec rc2 0); [contradiction|].
    exists w'. split; [exact Hbody|]. split; [exact Hfs|].
    split; [rewrite Hfs; apply lookup_delete_eq|].
    unfold new_lines. rewrite Hprinted, drop_app_length.
    split; [|split].
    + rewrite !elem_of_app. right. right. left. apply list_elem_of_here.
    + rewrite !elem_of_app. right. right. left.
      apply list_elem_of_further, list_elem_of_here.
    + now apply for_each_cons.
  - intros files w out err f1 Hne Hi Ho Hv.
    destruct (main_from_completes files w out err f1 Hne Hi Ho Hv)
      as (c & s & w' & Hmain & Hprobed & Hsum).
    exists c, s, w'. repeat split; try assumption.
    + intros <-. exact Hsum.
Qed.

End Transcoding.

(** ** Running again on converted files *)

Section Idempotence.

Context {py : Platform}.

Variable exec : Files → list string → Spawn.

(** C3.  When the version probe passes and every file probes as H.264
    (with binaries that only read), the run returns normally, the file
    system is the one it started with at the end and at every step, no
    transcoder is spawned, the "Skipping" line is printed for every file,
    and the final block of a non-empty run shows no file converted, all
    skipped and none failed. *)
Theorem rerun_skips_everything files w out err :
  exec (fs w) version_cmd = Exited 0 out err (fs w) →
  (∀ p, p ∈ files →
     ∃ out err, exec (fs w) (ffprobe_cmd p) = Exited 0 out err (fs w)
                ∧ PyStr.strip out = "h264") →
  let n := Z.of_nat (length files) in
  ∃ w',
    main_from exec files w = (Ret tt, w')
    ∧ fs w' = fs w
    ∧ (∀ snapshot, snapshot ∈ hist w' → snapshot ∈ hist w ∨ snapshot = fs w)
    ∧ (∀ cmd r, (cmd, r) ∈ new_calls w w' → is_transcode cmd = false)
    ∧ (∀ p, p ∈ files → skip_line p ∈ new_lines w w')
    ∧ (files ≠ [] →
       new_lines w w' = found_line n :: map skip_line files ++ summary_block 0 n 0).
Proof.
  intros Hv Hall n.
  destruct (decide (files = [])) as [->|Hne].
  { eexists. split; [apply main_from_nil|].
    unfold new_calls, new_lines. cbn [fs hist calls printed with_print].
    rewrite drop_all. repeat split.
    - intros snap Hin. now left.
    - intros cmd r Hin. now apply elem_of_nil in Hin.
    - intros p Hin. now apply elem_of_nil in Hin.
    - intros Hne. now contradiction Hne. }
  eexists. split.
  { rewrite (main_from_available exec files w out err (fs w) Hne Hv).
    unfold process_videos. rewrite for_each_all_skip; [reflexivity|].
    intros p Hp. rewrite fs_at_loop. now apply Hall. }
  unfold new_calls, new_lines.
  cbn [fs hist calls printed with_prints at_loop ran with_fs with_call with_print].
  rewrite <- !app_assoc, !drop_app_length. fold n.
  replace (n - 0 - (0 + n)) with 0 by lia. replace (0 + n) with n by lia.
  repeat split.
  - intros snap Hin. rewrite !elem_of_app in Hin.
    destruct Hin as [Hin|[Hin|Hin]]; [now left| |]; right.
    + now apply list_elem_of_singleton in Hin.
    + now apply elem_of_replicate in Hin.
  - intros cmd r Hin. cbn [app] in Hin.
    apply elem_of_cons in Hin as [Hin|Hin].
    + injection Hin as -> _. reflexivity.
    + apply list_elem_of_fmap in Hin as (q & Hq & _). injection Hq as -> _. reflexivity.
  - intros p Hp. cbn [app]. apply list_elem_of_further, elem_of_app. left.
    apply list_elem_of_fmap. now exists p.
Qed.

End Idempotence.

(** ** The temporary file and the replacement *)

Section Replacement.

Context {py : Platform}.

Variable exec : Files → list string → Spawn.





Lemma fs_at_convert p rc out err f1 w : fs (at_convert p rc out err f1 w) = f1.
Proof.
  unfold at_convert, before_convert, converting, after_probe.
  destruct (rc =? 0); reflexivity.
Qed.





End Replacement.

(** ** The stand-ins keep to the contract *)

Section StandIns.

Variables (prc : Z) (pout : string) (crc : Z).

Lemma fake_probe f p :
  fake prc pout crc f (ffprobe_cmd p) = Exited prc pout "probe-diagnostic" f.
Proof. reflexivity. Qed.

Lemma fake_version f :
  fake prc pout crc f version_cmd = Exited 0 "ffmpeg version 6.0" "" f.
Proof. reflexivity. Qed.

Lemma fake_convert f i o :
  fake prc pout crc f (ffmpeg_cmd i o)
  = if crc =? 0 then Exited 0 "" "" (<[o := "H264DATA"]> f)
    else Exited crc "" "encoder-diagnostic" (<[o := "PART"]> f).
Proof. reflexivity. Qed.

Lemma fake_responsive : responsive (fake prc pout crc).
Proof.
  split.
  - intros f p. rewrite fake_probe. eauto.
  - intros f i o. rewrite fake_convert. destruct (crc =? 0); eauto.
Qed.

Lemma fake_leaves_output : leaves_output (fake prc pout crc).
Proof.
  intros f i o out err f' H. rewrite fake_convert in H.
  destruct (Z.eqb_spec crc 0) as [_|Hne].
  - injection H as _ _ <-. rewrite lookup_insert_eq. eauto.
  - injection H as -> _ _ _. contradiction.
Qed.

Lemma fake_confined : confined (fake prc pout crc).
Proof.
  split; [|split].
  - intros f. now rewrite fake_version.
  - intros p f. now rewrite fake_probe.
  - intros i o f q Hq. rewrite fake_convert.
    destruct (crc =? 0); cbn [left_by]; now rewrite lookup_insert_ne.
Qed.

End StandIns.

(** ** Runs on the stand-ins *)

Section OnStandIns.

#[local] Existing Instance plain_platform.

(** The scenario of three files: one skipped, one converted and replaced,
    one failed with its temporary file removed and its content kept. *)
Example three_files_scenario :
  let r := main_from scenario ["a.mp4"; "b.mp4"; "c.mp4"] three_videos in
  ending r = Ret tt
  ∧ prints_summary (printed (final r)) 1 1 1
  ∧ fs (final r) !! "a.mp4" = Some "A"
  ∧ fs (final r) !! "b.mp4" = Some "H264DATA"
  ∧ fs (final r) !! "c.mp4" = Some "C"
  ∧ dom (fs (final r)) = dom (fs three_videos)
  ∧ count_calls transcode_ok (calls (final r)) = 1
  ∧ count_calls transcode_failed (calls (final r)) = 1.
Proof.
  intros r. split; [reflexivity|].
  split; [exists (take (length (printed (final r)) - 6) (printed (final r))); reflexivity|].
  repeat split; vm_compute; reflexivity.
Qed.

(** C2, as stated, fails.  On a file system without the video, with no
    binary installed, [main] prints one line and returns; what it printed
    does not end with a final block, for any three counts, so no summary
    with all counts zero is produced. *)
Lemma empty_run_prints_no_summary :
  candidates empty_world = []
  ∧ main nothing_installed empty_world
    = (Ret tt, mkWorld ∅ ["No video_{scene_id}.mp4 files found!"] [] [])
  ∧ ¬ prints_summary (printed (final (main nothing_installed empty_world))) 0 0 0
  ∧ ∀ c s f, ¬ prints_summary (printed (final (main nothing_installed empty_world))) c s f.
Proof.
  split; [reflexivity|]. split; [reflexivity|].
  split; [|intros c s f]; apply no_summary_in_one_line.
Qed.

Lemma no_candidates_ends_cleanly_witness :
  fs empty_world !! video_pattern = None
  ∧ main nothing_installed empty_world
    = (Ret tt, with_print "No video_{scene_id}.mp4 files found!" empty_world)
  ∧ new_lines empty_world (final (main nothing_installed empty_world))
    = ["No video_{scene_id}.mp4 files found!"]
  ∧ (∀ c s f,
       ¬ prints_summary
           (new_lines empty_world (final (main nothing_installed empty_world))) c s f)
  ∧ fs (final (main nothing_installed empty_world)) = fs empty_world
  ∧ calls (final (main nothing_installed empty_world)) = calls empty_world
  ∧ hist (final (main nothing_installed empty_world)) = hist empty_world.
Proof.
  split; [reflexivity|].
  apply (no_candidates_ends_cleanly nothing_installed empty_world). reflexivity.
Defined.

Lemma discovery_precedes_preflight_witness :
  fs empty_world !! video_pattern = None
  ∧ ending (main nothing_installed empty_world) = Ret tt
  ∧ new_calls empty_world (final (main nothing_installed empty_world)) = []
  ∧ new_lines empty_world (final (main nothing_installed empty_world))
    = ["No video_{scene_id}.mp4 files found!"]
  ∧ ("Error: ffmpeg is not installed or not in PATH"
       ∉ new_lines empty_world (final (main nothing_installed empty_world)))
  ∧ (nothing_installed (fs empty_world) version_cmd = NotFound →
     ∀ r, (version_cmd, r)
            ∉ new_calls empty_world (final (main nothing_installed empty_world))).
Proof.
  split; [reflexivity|].
  apply (discovery_precedes_preflight nothing_installed empty_world). reflexivity.
Defined.

Lemma one_video_found : is_Some (fs one_video !! video_pattern).
Proof. exists "MPEG4DATA". reflexivity. Defined.


Lemma missing_prober_aborts_run_witness :
  no_ffprobe (fs one_video) version_cmd
  = Exited 0 "ffmpeg version 6.0" "" (fs one_video)
  ∧ no_ffprobe (fs one_video) (ffprobe_cmd video_pattern) = NotFound
  ∧ let w1 := at_loop [video_pattern] (fs one_video) one_video in
    let w' := with_call (ffprobe_cmd video_pattern) None w1 in
    hd EmptyString version_cmd = "ffmpeg"
    ∧ get_video_info no_ffprobe video_pattern w1
      = (Raise (FileNotFoundError "ffprobe"), w')
    ∧ main_from no_ffprobe [video_pattern] one_video
      = (Raise (FileNotFoundError "ffprobe"), w')
    ∧ (candidates one_video = [video_pattern] →
       main no_ffprobe one_video = (Raise (FileNotFoundError "ffprobe"), w'))
    ∧ new_calls one_video w'
      = [(version_cmd, Some 0); (ffprobe_cmd video_pattern, None)]
    ∧ new_lines one_video w' = [found_line (Z.of_nat (length [video_pattern]))].
Proof.
  split; [reflexivity|]. split; [reflexivity|].
  apply (missing_prober_aborts_run no_ffprobe video_pattern [] one_video
           "ffmpeg version 6.0" "" (fs one_video)); reflexivity.
Defined.

Lemma target_codec_is_skipped_witness :
  let exec := fake 0 ("h264" +:+ nl) 0 in
  exec (fs one_video) (ffprobe_cmd video_pattern)
  = Exited 0 ("h264" +:+ nl) "probe-diagnostic" (fs one_video)
  ∧ PyStr.strip ("h264" +:+ nl) = "h264"
  ∧ let w' := mkWorld (fs one_video) (printed one_video ++ [skip_line video_pattern])
                (calls one_video ++ [(ffprobe_cmd video_pattern, Some 0)])
                (hist one_video ++ [fs one_video]) in
    loop_body exec video_pattern (0, 0) one_video = (Ret (0, 0 + 1), w')
    ∧ (∀ cmd r, (cmd, r) ∈ new_calls one_video w' → is_transcode cmd = false)
    ∧ (read_only exec (ffprobe_cmd video_pattern) → fs w' = fs one_video)
    ∧ for_each [video_pattern] (loop_body exec) (0, 0) one_video
      = for_each [] (loop_body exec) (0, 0 + 1) w'.
Proof.
  intros exec. split; [reflexivity|]. split; [reflexivity|].
  apply (target_codec_is_skipped exec video_pattern [] 0 0 one_video
           ("h264" +:+ nl) "probe-diagnostic" (fs one_video)); reflexivity.
Defined.

Lemma rerun_skips_everything_witness :
  let exec := fake 0 ("h264" +:+ nl) 0 in
  exec (fs one_video) version_cmd = Exited 0 "ffmpeg version 6.0" "" (fs one_video)
  ∧ (∀ p, p ∈ [video_pattern] →
       ∃ out err, exec (fs one_video) (ffprobe_cmd p) = Exited 0 out err (fs one_video)
                  ∧ PyStr.strip out = "h264")
  ∧ ∃ w',
      main_from exec [video_pattern] one_video = (Ret tt, w')
      ∧ fs w' = fs one_video
      ∧ (∀ snapshot, snapshot ∈ hist w' →
           snapshot ∈ hist one_video ∨ snapshot = fs one_video)
      ∧ (∀ cmd r, (cmd, r) ∈ new_calls one_video w' → is_transcode cmd = false)
      ∧ (∀ p, p ∈ [video_pattern] → skip_line p ∈ new_lines one_video w')
      ∧ ([video_pattern] ≠ [] →
         new_lines one_video w'
         = found_line 1 :: map skip_line [video_pattern] ++ summary_block 0 1 0).
Proof.
  intros exec.
  assert (Hall : ∀ p, p ∈ [video_pattern] →
            ∃ out err, exec (fs one_video) (ffprobe_cmd p)
                       = Exited 0 out err (fs one_video)
                       ∧ PyStr.strip out = "h264").
  { intros p _. exists ("h264" +:+ nl), "probe-diagnostic". split; reflexivity. }
  split; [reflexivity|]. split; [exact Hall|].
  exact (rerun_skips_everything exec [video_pattern] one_video
           "ffmpeg version 6.0" "" eq_refl Hall).
Defined.

(** C1, as stated, fails.  The video is there, the prober exits with 1,
    the transcoder works: [main] spawns the transcoder on the file all the
    same, replaces it by the output, and the final block counts it as
    converted, with no failed file. *)
Lemma failed_probe_is_transcoded :
  let exec := fake 1 "" 0 in
  let r := main exec one_video in
  exec (fs one_video) (ffprobe_cmd video_pattern)
  = Exited 1 "" "probe-diagnostic" (fs one_video)
  ∧ ending r = Ret tt
  ∧ calls (final r)
    = [(version_cmd, Some 0);
       (ffprobe_cmd video_pattern, Some 1);
       (ffmpeg_cmd video_pattern (temp_output video_pattern), Some 0)]
  ∧ fs (final r) !! video_pattern = Some "H264DATA"
  ∧ prints_summary (printed (final r)) 1 0 0.
Proof.
  intros exec r. split; [reflexivity|]. split; [reflexivity|].
  split; [reflexivity|]. split; [reflexivity|].
  exists (take 6 (printed (final r))). reflexivity.
Qed.

Lemma failed_probe_still_transcodes_witness :
  let p := video_pattern in
  let tmp := temp_output p in
  (let exec := fake 1 "" 0 in
   exec (fs one_video) (ffprobe_cmd p) = Exited 1 "" "probe-diagnostic" (fs one_video)
   ∧ (1 ≠ 0 ∨ PyStr.strip (PyStr.universal_newlines "") ≠ "h264")
   ∧ ∃ r w',
       loop_body exec p (0, 0) one_video = (r, w')
       ∧ (1 ≠ 0 → probe_error_line p 1 "probe-diagnostic" ∈ new_lines one_video w')
       ∧ new_calls one_video w' = [(ffprobe_cmd p, Some 1); (ffmpeg_cmd p tmp, Some 0)]
       ∧ r = Ret (0 + 1, 0)
       ∧ for_each [p] (loop_body exec) (0, 0) one_video
         = match r with
           | Ret counts => for_each [] (loop_body exec) counts w'
           | Raise e => (Raise e, w')
           end)
  ∧ (let exec := silent_transcoder in
     exec (fs one_video) (ffprobe_cmd p)
     = Exited 0 "mpeg4" "probe-diagnostic" (fs one_video)
     ∧ (0 ≠ 0 ∨ PyStr.strip (PyStr.universal_newlines "mpeg4") ≠ "h264")
     ∧ ∃ r w',
         loop_body exec p (0, 0) one_video = (r, w')
         ∧ (0 ≠ 0 → probe_error_line p 0 "probe-diagnostic" ∈ new_lines one_video w')
         ∧ new_calls one_video w' = [(ffprobe_cmd p, Some 0); (ffmpeg_cmd p tmp, Some 0)]
         ∧ r = Raise (FileNotFoundError tmp)
         ∧ for_each [p] (loop_body exec) (0, 0) one_video
           = match r with
             | Ret counts => for_each [] (loop_body exec) counts w'
             | Raise e => (Raise e, w')
             end)
  ∧ (let exec := garbled_probe in
     exec (fs one_video) (ffprobe_cmd p)
     = Garbled 0 (String "255" EmptyString) "" (fs one_video)
     ∧ let w' := ran (ffprobe_cmd p) 0 (fs one_video) one_video in
       get_video_info exec p one_video = (Raise UnicodeDecodeError, w')
       ∧ for_each [p] (loop_body exec) (0, 0) one_video = (Raise UnicodeDecodeError, w')
       ∧ new_lines one_video w' = []
       ∧ new_calls one_video w' = [(ffprobe_cmd p, Some 0)]).
Proof.
  intros p tmp.
  assert (H1 : 1 ≠ 0 ∨ PyStr.strip (PyStr.universal_newlines "") ≠ "h264")
    by (left; discriminate).
  assert (H2 : 0 ≠ 0 ∨ PyStr.strip (PyStr.universal_newlines "mpeg4") ≠ "h264")
    by (right; discriminate).
  split; [|split].
  - intros exec. split; [reflexivity|]. split; [exact H1|].
    exact (proj1 (failed_probe_still_transcodes exec) p [] 0 0 one_video
             1 "" "probe-diagnostic" (fs one_video) eq_refl H1).
  - intros exec. split; [reflexivity|]. split; [exact H2|].
    exact (proj1 (failed_probe_still_transcodes exec) p [] 0 0 one_video
             0 "mpeg4" "probe-diagnostic" (fs one_video) eq_refl H2).
  - intros exec. split; [reflexivity|].
    exact (proj2 (failed_probe_still_transcodes exec) p [] 0 0 one_video
             0 (String "255" EmptyString) "" (fs one_video) eq_refl).
Defined.

(** C4, as stated, fails.  One file, whose probe fails (exit status 2)
    and whose transcoding succeeds: the run ends with the final block, and
    its failed count is 0, not 1. *)
Lemma one_failed_probe_zero_failed_count :
  let exec := fake 2 "" 0 in
  let r := main exec one_video in
  candidates one_video = [video_pattern]
  ∧ exec (fs one_video) (ffprobe_cmd video_pattern)
    = Exited 2 "" "probe-diagnostic" (fs one_video)
  ∧ exec (fs one_video) (ffmpeg_cmd video_pattern (temp_output video_pattern))
    = Exited 0 "" "" (<[temp_output video_pattern := "H264DATA"]> (fs one_video))
  ∧ ending r = Ret tt
  ∧ prints_summary (printed (final r)) 1 0 0
  ∧ ∀ c s, ¬ prints_summary (printed (final r)) c s 1.
Proof.
  intros exec r.
  assert (Hsum : printed (final r) = take 6 (printed (final r)) ++ summary_block 1 0 0)
    by reflexivity.
  split; [reflexivity|]. split; [reflexivity|]. split; [reflexivity|].
  split; [reflexivity|]. split; [eexists; exact Hsum|].
  intros c s [pre Hpre]. rewrite Hsum in Hpre.
  apply app_inj_2 in Hpre as [_ Hblocks]; [|reflexivity].
  unfold summary_block in Hblocks.
  injection Hblocks as _ _ Hfailed. vm_compute in Hfailed. discriminate Hfailed.
Qed.

Lemma transcode_failure_is_isolated_witness :
  let exec := fake 0 "mpeg4" 1 in
  let p := video_pattern in
  let f2 := <[temp_output p := "PART"]> (fs one_video) in
  (exec (fs one_video) (ffprobe_cmd p) = Exited 0 "mpeg4" "probe-diagnostic" (fs one_video)
   ∧ probed_codec 0 "mpeg4" ≠ Some "h264"
   ∧ exec (fs one_video) (ffmpeg_cmd p (temp_output p))
     = Exited 1 "" "encoder-diagnostic" f2
   ∧ 1 ≠ 0
   ∧ ∃ w',
       loop_body exec p (0, 0) one_video = (Ret (0, 0), w')
       ∧ fs w' = delete (temp_output p) f2
       ∧ fs w' !! temp_output p = None
       ∧ convert_error_line p (temp_output p) 1 "encoder-diagnostic"
           ∈ new_lines one_video w'
       ∧ ("stderr: " +:+ PyStr.universal_newlines "encoder-diagnostic")
           ∈ new_lines one_video w'
       ∧ for_each [p] (loop_body exec) (0, 0) one_video
         = for_each [] (loop_body exec) (0, 0) w')
  ∧ ([p] ≠ []
     ∧ responsive exec ∧ leaves_output exec
     ∧ exec (fs one_video) version_cmd = Exited 0 "ffmpeg version 6.0" "" (fs one_video)
     ∧ ∃ c s w',
         main_from exec [p] one_video = (Ret tt, w')
         ∧ (∀ q, q ∈ [p] → ∃ rc, (ffprobe_cmd q, Some rc) ∈ new_calls one_video w')
         ∧ prints_summary (new_lines one_video w') c s
             (count_calls transcode_failed (new_calls one_video w'))
         ∧ (count_calls transcode_failed (new_calls one_video w') = 1 →
            prints_summary (new_lines one_video w') c s 1)).
Proof.
  intros exec p f2.
  destruct (transcode_failure_is_isolated exec) as [A B].
  assert (Hc : probed_codec 0 "mpeg4" ≠ Some "h264") by discriminate.
  assert (Hrc : 1 ≠ 0) by discriminate.
  assert (Hne : [p] ≠ []) by discriminate.
  split.
  - split; [reflexivity|]. split; [exact Hc|]. split; [reflexivity|]. split; [exact Hrc|].
    exact (A p [] 0 0 one_video 0 "mpeg4" "probe-diagnostic" (fs one_video)
             1 "" "encoder-diagnostic" f2 eq_refl Hc eq_refl Hrc).
  - split; [exact Hne|]. split; [apply fake_responsive|].
    split; [apply fake_leaves_output|]. split; [reflexivity|].
    exact (B [p] one_video "ffmpeg version 6.0" "" (fs one_video) Hne
             (fake_responsive 0 "mpeg4" 1) (fake_leaves_output 0 "mpeg4" 1) eq_refl).
Defined.

(** C8, as stated, fails.  On the video, already H.264, [main] prints the
    "Found" line, the "Skipping" line and the final block, and the block
    is six lines with three counts: none of them is the number of files.
    On three files, of which one is skipped, one converted and one fails,
    the three counts are 1 and the number 3 is in no line of the block: it
    is printed in the "Found" line, before the version probe is spawned. *)
Lemma final_block_has_no_total :
  (let r := main (fake 0 ("h264" +:+ nl) 0) one_video in
   ending r = Ret tt
   ∧ printed (final r)
     = ["Found 1 video files to process" +:+ nl;
        "⊙ Skipping video_0446.mp4 (already H.264)";
        nl +:+ "==================================================";
        "Conversion complete!";
        "  Successfully converted: 0";
        "  Skipped (already H.264): 1";
        "  Failed: 0";
        "=================================================="])
  ∧ (let files := ["a.mp4"; "b.mp4"; "c.mp4"] in
     let r := main_from scenario files three_videos in
     ending r = Ret tt
     ∧ take 1 (printed (final r)) = ["Found 3 video files to process" +:+ nl]
     ∧ printed (at_loop files (fs three_videos) three_videos)
       = ["Found 3 video files to process" +:+ nl]
     ∧ drop 11 (printed (final r))
       = [nl +:+ "==================================================";
          "Conversion complete!";
          "  Successfully converted: 1";
          "  Skipped (already H.264): 1";
          "  Failed: 1";
          "=================================================="]
     ∧ length (printed (final r)) = 17%nat
     ∧ ∀ line, line ∈ drop 11 (printed (final r)) → occurs "3" line = false).
Proof.
  split.
  - intros r. split; vm_compute; reflexivity.
  - intros files r.
    assert (Hblock : drop 11 (printed (final r))
              = [nl +:+ "==================================================";
                 "Conversion complete!";
                 "  Successfully converted: 1";
                 "  Skipped (already H.264): 1";
                 "  Failed: 1";
                 "=================================================="])
      by (vm_compute; reflexivity).
    split; [vm_compute; reflexivity|]. split; [vm_compute; reflexivity|].
    split; [vm_compute; reflexivity|]. split; [exact Hblock|].
    split; [vm_compute; reflexivity|].
    intros line Hin. rewrite Hblock in Hin.
    repeat (apply elem_of_cons in Hin as [->|Hin]; [vm_compute; reflexivity|]).
    now apply elem_of_nil in Hin.
Qed.

Lemma summary_reports_counts_witness :
  let exec := fake 0 "mpeg4" 1 in
  let files := [video_pattern] in
  let w := one_video in
  let f1 := fs one_video in
  files ≠ []
  ∧ exec (fs w) version_cmd = Exited 0 "ffmpeg version 6.0" "" f1
  ∧ let total := Z.of_nat (length files) in
    (∀ c s w2,
       process_videos exec files (at_loop files f1 w) = (Ret (c, s), w2) →
       let w' := final (main_from exec files w) in
       ending (main_from exec files w) = Ret tt
       ∧ new_lines w (at_loop files f1 w) = [found_line total]
       ∧ new_lines w w'
         = found_line total :: new_lines (at_loop files f1 w) w2
             ++ [nl +:+ str_mul "=" 50;
                 "Conversion complete!";
                 "  Successfully converted: " +:+ str_int c;
                 "  Skipped (already H.264): " +:+ str_int s;
                 "  Failed: " +:+ str_int (total - c - s);
                 str_mul "=" 50]
       ∧ c = count_calls transcode_ok (new_calls w w')
       ∧ total - c - s = count_calls transcode_failed (new_calls w w')
       ∧ 0 ≤ c ∧ 0 ≤ s ∧ 0 ≤ total - c - s)
    ∧ (responsive exec → leaves_output exec →
       ∃ c s w2, process_videos exec files (at_loop files f1 w) = (Ret (c, s), w2)).
Proof.
  intros exec files w f1.
  assert (Hne : files ≠ []) by discriminate.
  split; [exact Hne|]. split; [reflexivity|].
  exact (summary_reports_counts exec files w "ffmpeg version 6.0" "" f1 Hne eq_refl).
Defined.


End OnStandIns.

(** ** Beyond the claims: the strings the script computes *)

Section Strings.

Lemma append_length a b :
  String.length (a +:+ b) = (String.length a + String.length b)%nat.
Proof.
  induction a as [|c a IH]; [reflexivity|].
  rewrite append_cons. cbn [String.length]. now rewrite IH.
Qed.

Lemma prefix_split a s : String.prefix a s = true → ∃ t, s = a +:+ t.
Proof.
  revert s. induction a as [|c a IH]; intros s H.
  - now exists s.
  - destruct s as [|d s]; [discriminate H|].
    change (String.prefix (String c a) (String d s))
      with (if ascii_dec c d then String.prefix a s else false) in H.
    destruct (ascii_dec c d) as [->|]; [|discriminate].
    destruct (IH s H) as [t ->]. now exists t.
Qed.

Lemma prefix_mp4 t : String.prefix ".mp4" (".mp4" +:+ t) = true.
Proof. destruct t; reflexivity. Qed.

Lemma temp_output_match t :
  temp_output (".mp4" +:+ t) = "_temp.mp4" +:+ temp_output t.
Proof.
  unfold temp_output, PyStr.replace.
  change (".mp4" +:+ t) with (String "." ("mp4" +:+ t)) at 1.
  cbn [PyStr.replace_from].
  change (String "." ("mp4" +:+ t)) with (".mp4" +:+ t).
  rewrite prefix_mp4. reflexivity.
Qed.

Lemma temp_output_other c s :
  String.prefix ".mp4" (String c s) = false →
  temp_output (String c s) = String c (temp_output s).
Proof.
  intros H. unfold temp_output, PyStr.replace. cbn [PyStr.replace_from].
  now rewrite H.
Qed.

Lemma temp_output_grows n :
  ∀ s, (String.length s ≤ n)%nat →
    (String.length s ≤ String.length (temp_output s))%nat
    ∧ (occurs ".mp4" s = true →
       (String.length s < String.length (temp_output s))%nat).
Proof.
  induction n as [|n IH]; intros s Hn.
  { destruct s; [|cbn in Hn; lia]. split; [cbn; lia|]. intros H. discriminate H. }
  destruct s as [|c s]; [split; [cbn; lia | intros H; discriminate H]|].
  destruct (String.prefix ".mp4" (String c s)) eqn:Hp.
  - destruct (prefix_split _ _ Hp) as [t Ht]. rewrite Ht, temp_output_match.
    assert (Hlen : (String.length t ≤ n)%nat).
    { apply (f_equal String.length) in Ht. rewrite append_length in Ht.
      change (String.length ".mp4") with 4%nat in Ht. lia. }
    destruct (IH t Hlen) as [Hle _]. rewrite !append_length.
    change (String.length "_temp.mp4") with 9%nat. change (String.length ".mp4") with 4%nat.
    split; [|intros _]; lia.
  - rewrite (temp_output_other _ _ Hp).
    assert (Hlen : (String.length s ≤ n)%nat) by (cbn in Hn; lia).
    destruct (IH s Hlen) as [Hle Hlt]. cbn [String.length]. split; [lia|].
    intros Hocc. cbn [occurs] in Hocc. rewrite Hp in Hocc. cbn [orb] in Hocc.
    specialize (Hlt Hocc). lia.
Qed.

Lemma temp_output_without s : occurs ".mp4" s = false → temp_output s = s.
Proof.
  induction s as [|c s IH]; [reflexivity|].
  intros H. cbn [occurs] in H. apply orb_false_elim in H as [Hp Hocc].
  rewrite (temp_output_other _ _ Hp). now rewrite IH.
Qed.

Lemma occurs_suffix old q : occurs old (q +:+ old) = true.
Proof.
  induction q as [|c q IH].
  - rewrite append_nil.
    assert (Hp : String.prefix old old = true).
    { clear. induction old as [|c old IH]; [reflexivity|].
      change (String.prefix (String c old) (String c old))
        with (if ascii_dec c c then String.prefix old old else false).
      destruct (ascii_dec c c); [exact IH | contradiction]. }
    destruct old; cbn [occurs]; now rewrite Hp.
  - rewrite append_cons. cbn [occurs]. rewrite IH. apply orb_true_r.
Qed.

(** X7.  The temporary path is the path itself exactly when [.mp4] does
    not occur in it; when it occurs the temporary path is longer, so a path
    that ends in [.mp4] never gets itself as its temporary path. *)
Theorem temp_output_collides_iff p :
  (temp_output p = p ↔ occurs ".mp4" p = false)
  ∧ (occurs ".mp4" p = true →
     (String.length p < String.length (temp_output p))%nat)
  ∧ (∀ q, p = q +:+ ".mp4" → temp_output p ≠ p).
Proof.
  assert (Hgrow : occurs ".mp4" p = true →
                  (String.length p < String.length (temp_output p))%nat).
  { apply (temp_output_grows (String.length p) p). lia. }
  split; [split|split].
  - intros Heq. destruct (occurs ".mp4" p) eqn:Hocc; [|reflexivity].
    specialize (Hgrow eq_refl). rewrite Heq in Hgrow. lia.
  - apply temp_output_without.
  - exact Hgrow.
  - intros q -> Heq. pose proof (occurs_suffix ".mp4" q) as Hocc.
    specialize (Hgrow Hocc). rewrite Heq in Hgrow. lia.
Qed.

End Strings.

(** ** Beyond the claims: the two helpers *)

Section Helpers.

Context {py : Platform}.

Variable exec : Files → list string → Spawn.

Lemma fs_after_probe p rc err f1 w : fs (after_probe p rc err f1 w) = f1.
Proof. unfold after_probe. destruct (rc =? 0); reflexivity. Qed.

(** X1.  [get_video_info] hands back what the prober printed, read as a
    text stream reads it (CR LF and CR as LF) and without the white space
    around it, that of more than one byte included.  A word of visible
    ASCII characters with white space of any kind around it comes back as
    the word, so a prober that pads ["h264"] still has its file skipped. *)
Theorem probe_answer_is_stripped p c s w pre core post err f1 :
  exec (fs w) (ffprobe_cmd p) = Exited 0 (pre +:+ core +:+ post) err f1 →
  PyStr.blank pre = true → word core = true → PyStr.blank post = true →
  get_video_info exec p w = (Ret (Some core), ran (ffprobe_cmd p) 0 f1 w)
  ∧ (core = "h264" →
     loop_body exec p (c, s) w
     = (Ret (c, s + 1),
        mkWorld f1 (printed w ++ [skip_line p]) (calls w ++ [(ffprobe_cmd p, Some 0)])
          (hist w ++ [f1]))).
Proof.
  intros Hp Hpre Hw Hpost.
  pose proof (strip_padded pre core post Hpre Hw Hpost) as Hstrip.
  split.
  - rewrite (get_video_info_exit0 exec p w _ err f1 Hp). now rewrite Hstrip.
  - intros ->.
    rewrite (loop_body_skip exec p c s w 0 _ err f1 Hp).
    + now rewrite skip_world.
    + unfold probed_codec. cbn [Z.eqb]. now rewrite Hstrip.
Qed.

(** X2.  [convert_video] spawns the transcoder once and does nothing
    else to the files: the file system it leaves is the one the spawn
    left, so with a transcoder that writes its output path only, every
    other path, the input included, is as before, however the call ends.
    How it ends is decided by what the spawn meets.  With output that
    decodes it returns [True] for exit status 0 and [False], after
    printing the transcoder's [stderr], for any other status.  It raises
    [FileNotFoundError] when the binary is missing, another [OSError]
    when the system does not start it, and [UnicodeDecodeError] when the
    output does not decode, whatever the exit status.
    [CalledProcessError] never leaves it. *)
Theorem convert_video_confined i o w r w' :
  writes_only exec (ffmpeg_cmd i o) o →
  convert_video exec i o w = (r, w') →
  let x := exec (fs w) (ffmpeg_cmd i o) in
  (∀ q, q ≠ o → fs w' !! q = fs w !! q)
  ∧ fs w' = left_by (fs w) x
  ∧ new_calls w w' = [(ffmpeg_cmd i o, returncode_of x)]
  ∧ r = match x with
        | Exited rc _ _ _ => Ret (rc =? 0)
        | NotFound => Raise (FileNotFoundError "ffmpeg")
        | Refused errno => Raise (OSError errno)
        | Garbled _ _ _ _ => Raise UnicodeDecodeError
        end
  ∧ (∀ rc cmd err, r ≠ Raise (CalledProcessError rc cmd err))
  ∧ (r = Ret true →
     new_lines w w' = ["Converting: " +:+ PyStr.basename i;
                       "✓ Successfully converted: " +:+ PyStr.basename i])
  ∧ (r = Ret false →
     ∃ rc out err f',
       x = Exited rc out err f' ∧ rc ≠ 0
       ∧ new_lines w w' = ["Converting: " +:+ PyStr.basename i;
                           convert_error_line i o rc err;
                           "stderr: " +:+ PyStr.universal_newlines err]).
Proof.
  intros Hwo H x.
  assert (Hframe : ∀ q, q ≠ o → left_by (fs w) x !! q = fs w !! q).
  { intros q Hq. apply (Hwo (fs w) q Hq). }
  destruct (spawn_stops (ffmpeg_cmd i o) x) as [e|] eqn:Hs.
  - rewrite (convert_video_stops exec i o w e Hs) in H. injection H as <- <-.
    fold x. unfold new_calls.
    rewrite fs_spawned, calls_spawned. cbn [fs calls converting with_print].
    rewrite drop_app_length.
    split; [exact Hframe|]. split; [reflexivity|]. split; [reflexivity|].
    split; [|split; [|split]].
    + destruct x; cbn in Hs; try discriminate Hs; now injection Hs as <-.
    + intros rc cmd err [= ->]. now apply (spawn_stops_uncaught _ _ _ Hs rc cmd err).
    + intros [=].
    + intros [=].
  - apply spawn_runs in Hs as (rc & out & err & f' & Hx). rewrite Hx in Hframe |- *.
    destruct (Z.eqb_spec rc 0) as [->|Hrc].
    + rewrite (convert_video_exit0 exec i o w out err f' Hx) in H. injection H as <- <-.
      unfold new_calls, new_lines.
      cbn [fs calls printed with_call converting with_print ran with_fs left_by
             returncode_of].
      rewrite <- !app_assoc, !drop_app_length.
      split; [exact Hframe|]. repeat split; try reflexivity.
      * intros rc cmd err0 [=].
      * intros [=].
    + rewrite (convert_video_fail exec i o w rc out err f' Hx Hrc) in H.
      injection H as <- <-. unfold new_calls, new_lines.
      cbn [fs calls printed with_call converting with_print ran with_fs left_by
             returncode_of].
      rewrite <- !app_assoc, !drop_app_length.
      split; [exact Hframe|]. repeat split; try reflexivity.
      * intros rc0 cmd err0 [=].
      * intros [=].
      * intros _. now exists rc, out, err, f'.
Qed.

End Helpers.

(** ** Beyond the claims: the loop on any files *)

Section AnyFiles.

Context {py : Platform}.

Variable exec : Files → list string → Spawn.

(** What one iteration spawns, however it ends, and which exception
    cannot end it. *)
Lemma loop_body_spawns p cs w r w' :
  loop_body exec p cs w = (r, w') →
  (∃ r1 rest,
     calls w' = calls w ++ (ffprobe_cmd p, r1) :: rest
     ∧ (rest = [] ∨ ∃ r2, rest = [(ffmpeg_cmd p (temp_output p), r2)]))
  ∧ (∀ rc cmd err, r ≠ Raise (CalledProcessError rc cmd err)).
Proof.
  intros Hbody. destruct cs as [c s].
  destruct (spawn_stops (ffprobe_cmd p) (exec (fs w) (ffprobe_cmd p))) as [e|] eqn:Hsp.
  { rewrite (loop_body_probe_stops _ _ _ _ _ Hsp) in Hbody.
    injection Hbody as <- <-. split.
    - eexists. exists []. rewrite calls_spawned. split; [reflexivity | now left].
    - intros rc cmd err [= ->]. now apply (spawn_stops_uncaught _ _ _ Hsp rc cmd err). }
  apply spawn_runs in Hsp as (rc & out & err & f1 & Hp).
  destruct (decide (probed_codec rc out = Some "h264")) as [Hc|Hc].
  { rewrite (loop_body_skip _ _ _ _ _ _ _ _ _ Hp Hc) in Hbody.
    injection Hbody as <- <-. split; [|intros rc0 cmd err0 [=]].
    exists (Some rc), []. cbn [calls with_print]. rewrite calls_after_probe.
    split; [reflexivity | now left]. }
  destruct (loop_body_not_h264 exec p c s w rc out err f1 Hp Hc)
    as (r0 & w0 & l & Hbody0 & Hcalls & _ & Hr).
  rewrite Hbody in Hbody0. injection Hbody0 as <- <-. split.
  - eexists. eexists. split; [exact Hcalls|]. right. eauto.
  - intros rc0 cmd err0 ->.
    destruct (exec f1 (ffmpeg_cmd p (temp_output p))) as [|errno|rc2 out2 err2 f2|];
      try discriminate Hr.
    destruct (rc2 =? 0); [|discriminate Hr].
    destruct (f2 !! temp_output p); discriminate Hr.
Qed.

Lemma for_each_never_raises_exit files :
  ∀ cs w e w',
    for_each files (loop_body exec) cs w = (Raise e, w') →
    ∀ rc cmd err, e ≠ CalledProcessError rc cmd err.
Proof.
  induction files as [|p files IH]; intros cs w e w' H; [discriminate H|].
  cbn [for_each] in H. unfold mbind, M_bind in H.
  destruct (loop_body exec p cs w) as [[cs1|e1] w1] eqn:E.
  - exact (IH _ _ _ _ H).
  - injection H as <- <-. intros rc cmd err ->.
    now apply (proj2 (loop_body_spawns _ _ _ _ _ E) rc cmd err).
Qed.

(** X3.  No exit status of a binary ends the run: [CalledProcessError]
    never leaves [main_from], and so never leaves [main], since each of
    the three calls of [subprocess.run] sits in a handler that names it.
    What does leave [main] is what the handlers do not name.  With
    binaries that run to an exit and write output that decodes, a
    transcoder that leaves its output when it exits with 0, and a version
    probe that the system does not refuse to start, the run returns
    normally whatever the files are and whatever the exit statuses. *)
Theorem no_exit_status_ends_the_run files w :
  (∀ rc cmd err, ending (main_from exec files w) ≠ Raise (CalledProcessError rc cmd err))
  ∧ (∀ rc cmd err, ending (main exec w) ≠ Raise (CalledProcessError rc cmd err))
  ∧ (responsive exec → leaves_output exec →
     (∀ errno, exec (fs w) version_cmd ≠ Refused errno) →
     ending (main_from exec files w) = Ret tt ∧ ending (main exec w) = Ret tt).
Proof.
  assert (Hraise : ∀ fl rc cmd err,
            ending (main_from exec fl w) ≠ Raise (CalledProcessError rc cmd err)).
  { intros fl rc cmd err.
    destruct (decide (fl = [])) as [->|Hne]; [intros H; discriminate H|].
    rewrite (main_from_unfold exec fl w Hne). cbv zeta.
    assert (Hloop : ∀ f1,
              ending
                match process_videos exec fl (at_loop fl f1 w) with
                | (Ret (c, s), w2) =>
                    (Ret tt,
                     with_prints (summary_block c s (Z.of_nat (length fl) - c - s)) w2)
                | (Raise e, w2) => (Raise e, w2)
                end ≠ Raise (CalledProcessError rc cmd err)).
    { intros f1. unfold process_videos.
      destruct (for_each fl (loop_body exec) (0, 0) (at_loop fl f1 w))
        as [[[c s]|e1] w2] eqn:E; [intros H; discriminate H|].
      intros [= ->]. now apply (for_each_never_raises_exit _ _ _ _ _ E rc cmd err). }
    destruct (exec (fs w) version_cmd) as [|errno|rc0 out0 err0 f1|rc0 out0 err0 f1];
      try (intros H; discriminate H);
      (destruct (rc0 =? 0); [apply Hloop | intros H; discriminate H]). }
  assert (Hret : responsive exec → leaves_output exec →
                 (∀ errno, exec (fs w) version_cmd ≠ Refused errno) →
                 ∀ fl, ending (main_from exec fl w) = Ret tt).
  { intros Hi Ho Hv fl. destruct (decide (fl = [])) as [->|Hne]; [reflexivity|].
    rewrite (main_from_unfold exec fl w Hne). cbv zeta.
    assert (Hloop : ∀ f1,
              ending
                match process_videos exec fl (at_loop fl f1 w) with
                | (Ret (c, s), w2) =>
                    (Ret tt,
                     with_prints (summary_block c s (Z.of_nat (length fl) - c - s)) w2)
                | (Raise e, w2) => (Raise e, w2)
                end = Ret tt).
    { intros f1.
      destruct (for_each_returns exec fl Hi Ho 0 0 (at_loop fl f1 w)) as (c & s & w2 & E).
      unfold process_videos. now rewrite E. }
    destruct (exec (fs w) version_cmd) as [|errno|rc0 out0 err0 f1|rc0 out0 err0 f1];
      [reflexivity | now contradiction (Hv errno) | |];
      (destruct (rc0 =? 0); [apply Hloop | reflexivity]). }
  split; [apply Hraise|]. split.
  - rewrite main_eq. apply Hraise.
  - intros Hi Ho Hv. split; [now apply Hret|]. rewrite main_eq. now apply Hret.
Qed.

(** X10.  A version probe that the system refuses to start (permission
    denied, say) is not what the handler of the preflight check names:
    the [OSError] leaves [main_from], and [main] when the video is there,
    after the "Found" line, with no other process spawned, no file
    touched and neither the two lines about the missing tool nor a final
    block printed. *)
Theorem refused_version_probe_ends_the_run files w errno :
  files ≠ [] →
  exec (fs w) version_cmd = Refused errno →
  let w' := final (main_from exec files w) in
  ending (main_from exec files w) = Raise (OSError errno)
  ∧ new_lines w w' = [found_line (Z.of_nat (length files))]
  ∧ new_calls w w' = [(version_cmd, None)]
  ∧ fs w' = fs w
  ∧ hist w' = hist w
  ∧ (candidates w = files → main exec w = main_from exec files w).
Proof.
  intros Hne Hv w'.
  assert (Hmain : candidates w = files → main exec w = main_from exec files w).
  { intros <-. apply main_eq. }
  assert (Hrun : main_from exec files w
                 = (Raise (OSError errno),
                    with_call version_cmd None
                      (with_print (found_line (Z.of_nat (length files))) w))).
  { rewrite (main_from_unfold exec files w Hne), Hv. reflexivity. }
  unfold w'. rewrite Hrun in Hmain |- *.
  unfold ending, final, new_lines, new_calls.
  cbn [fst snd printed calls fs hist with_call with_print].
  rewrite !drop_app_length. repeat split. exact Hmain.
Qed.

(** X11.  The version probe is the one call without [text=True]: its
    output is not decoded, so a banner that does not decode changes
    nothing.  With exit status 0 the run goes into the loop, as it does
    for a banner that decodes; with another status it prints the two
    lines about the missing tool and returns. *)
Theorem version_probe_is_not_decoded files w rc out err f1 :
  files ≠ [] →
  exec (fs w) version_cmd = Garbled rc out err f1 →
  let w' := final (main_from exec files w) in
  (rc = 0 →
   main_from exec files w
   = match process_videos exec files (at_loop files f1 w) with
     | (Ret (c, s), w2) =>
         (Ret tt, with_prints (summary_block c s (Z.of_nat (length files) - c - s)) w2)
     | (Raise e, w2) => (Raise e, w2)
     end)
  ∧ (rc ≠ 0 →
     ending (main_from exec files w) = Ret tt
     ∧ new_lines w w'
       = [found_line (Z.of_nat (length files));
          "Error: ffmpeg is not installed or not in PATH";
          "Please install ffmpeg: brew install ffmpeg"]
     ∧ new_calls w w' = [(version_cmd, Some rc)]
     ∧ fs w' = f1).
Proof.
  intros Hne Hv w'. unfold w'.
  rewrite (main_from_unfold exec files w Hne), Hv. cbv zeta.
  destruct (Z.eqb_spec rc 0) as [->|Hrc].
  - split; [reflexivity | intros H; contradiction].
  - split; [intros H; contradiction|]. intros _.
    unfold ending, final, new_lines, new_calls.
    cbn [fst snd printed calls fs hist with_prints ran with_fs with_call with_print].
    rewrite <- !app_assoc, !drop_app_length. repeat split.
Qed.

Lemma probes_app a b : probes (a ++ b) = probes a ++ probes b.
Proof. unfold probes. now rewrite filter_app, fmap_app. Qed.

Lemma transcodes_app a b : transcodes (a ++ b) = transcodes a ++ transcodes b.
Proof. unfold transcodes. now rewrite filter_app, fmap_app. Qed.

(** The probes and transcoder runs of one iteration. *)
Lemma loop_body_order p cs w r w' :
  loop_body exec p cs w = (r, w') →
  ∃ new,
    calls w' = calls w ++ new
    ∧ probes new = [ffprobe_cmd p]
    ∧ (transcodes new = [] ∨ transcodes new = [ffmpeg_cmd p (temp_output p)]).
Proof.
  intros H. destruct (loop_body_spawns _ _ _ _ _ H) as [(r1 & rest & Hc & Hrest) _].
  exists ((ffprobe_cmd p, r1) :: rest). split; [exact Hc|].
  destruct Hrest as [->|[r2 ->]]; split; try reflexivity; [now left | now right].
Qed.

(** X4.  No file is tried twice and none is passed over: in a loop that
    returns, the prober has been spawned once per file, in the order of the
    list; if an exception ends the loop, the files probed are a prefix of
    the list.  The transcoder runs are, in the same order, for some of the
    files, each with its own temporary path as output. *)
Theorem each_file_is_tried_once files :
  ∀ cs w r w',
    for_each files (loop_body exec) cs w = (r, w') →
    ∃ new,
      calls w' = calls w ++ new
      ∧ probes new `prefix_of` map ffprobe_cmd files
      ∧ (∀ cs', r = Ret cs' → probes new = map ffprobe_cmd files)
      ∧ transcodes new `sublist_of` map (λ p, ffmpeg_cmd p (temp_output p)) files.
Proof.
  induction files as [|p files IH]; intros cs w r w' H.
  - cbn in H. injection H as <- <-. exists []. rewrite app_nil_r.
    repeat split; try reflexivity.
  - cbn [for_each] in H. unfold mbind, M_bind in H.
    destruct (loop_body exec p cs w) as [[cs1|e1] w1] eqn:E;
      destruct (loop_body_order _ _ _ _ _ E) as (n1 & Hc1 & Hp1 & Ht1).
    + destruct (IH _ _ _ _ H) as (n2 & Hc2 & Hp2 & Hall & Ht2).
      exists (n1 ++ n2). rewrite Hc2, Hc1, <- app_assoc, probes_app, transcodes_app, Hp1.
      cbn [map app]. split; [reflexivity|]. split; [|split].
      * now apply prefix_cons.
      * intros cs' Hr. now rewrite (Hall cs' Hr).
      * destruct Ht1 as [->| ->]; cbn [app];
          [now apply sublist_cons | now apply sublist_skip].
    + injection H as <- <-. exists n1. rewrite Hp1. split; [exact Hc1|].
      split; [|split].
      * apply prefix_cons, prefix_nil.
      * intros cs' Hr. discriminate Hr.
      * destruct Ht1 as [->| ->];
          [apply sublist_nil_l | apply sublist_skip, sublist_nil_l].
Qed.

End AnyFiles.

(** ** Beyond the claims: what a run leaves on disk *)

Section OnDisk.

Context {py : Platform}.

Variable exec : Files → list string → Spawn.

(** One iteration, however it ends, leaves every path other than the file
    and its temporary path as it was. *)
Lemma loop_body_frame p cs w r w' q :
  confined exec →
  q ≠ p → q ≠ temp_output p →
  loop_body exec p cs w = (r, w') →
  fs w' !! q = fs w !! q.
Proof.
  intros (_ & Hro & Hwo) Hqp Hqt Hbody. destruct cs as [c s].
  destruct (spawn_stops (ffprobe_cmd p) (exec (fs w) (ffprobe_cmd p))) as [e|] eqn:Hsp.
  { rewrite (loop_body_probe_stops _ _ _ _ _ Hsp) in Hbody.
    injection Hbody as <- <-. now rewrite fs_spawned, (Hro p (fs w)). }
  apply spawn_runs in Hsp as (rc & out & err & f1 & Hp).
  assert (f1 = fs w) as ->.
  { specialize (Hro p (fs w)). now rewrite Hp in Hro. }
  destruct (decide (probed_codec rc out = Some "h264")) as [Hc|Hc].
  { rewrite (loop_body_skip _ _ _ _ _ _ _ _ _ Hp Hc) in Hbody.
    injection Hbody as <- <-. cbn [fs with_print]. now rewrite fs_after_probe. }
  pose proof (Hwo p (temp_output p) (fs w) q Hqt) as Hq2.
  destruct (spawn_stops (ffmpeg_cmd p (temp_output p))
              (exec (fs w) (ffmpeg_cmd p (temp_output p)))) as [e|] eqn:Hsx.
  { rewrite (loop_body_convert_stops _ _ _ _ _ _ _ _ _ Hp Hc _ Hsx) in Hbody.
    injection Hbody as <- <-. now rewrite fs_spawned, fs_at_convert. }
  apply spawn_runs in Hsx as (rc2 & out2 & err2 & f2 & Hx).
  rewrite Hx in Hq2. cbn [left_by] in Hq2.
  destruct (decide (rc2 = 0)) as [->|Hrc2].
  - destruct (f2 !! temp_output p) as [d|] eqn:Hd.
    + rewrite (loop_body_converted _ _ _ _ _ _ _ _ _ Hp Hc _ _ _ _ Hx Hd) in Hbody.
      injection Hbody as <- <-. cbn [fs with_print with_fs].
      now rewrite lookup_insert_ne, lookup_delete_ne by congruence.
    + rewrite (loop_body_replace_raises _ _ _ _ _ _ _ _ _ Hp Hc _ _ _ Hx Hd) in Hbody.
      injection Hbody as <- <-. exact Hq2.
  - rewrite (loop_body_failed _ _ _ _ _ _ _ _ _ Hp Hc _ _ _ _ Hx Hrc2) in Hbody.
    injection Hbody as <- <-. cbn [fs with_print]. rewrite fs_cleaned.
    cbn [fs with_print after_convert_fail ran with_fs].
    now rewrite lookup_delete_ne by congruence.
Qed.

Lemma for_each_frame files q :
  confined exec →
  (∀ p, p ∈ files → q ≠ p ∧ q ≠ temp_output p) →
  ∀ cs w r w',
    for_each files (loop_body exec) cs w = (r, w') → fs w' !! q = fs w !! q.
Proof.
  intros Hconf. induction files as [|p files IH]; intros Hq cs w r w' H.
  - cbn in H. now injection H as <- <-.
  - destruct (Hq p) as [Hqp Hqt]; [apply list_elem_of_here|].
    cbn [for_each] in H. unfold mbind, M_bind in H.
    destruct (loop_body exec p cs w) as [[cs1|e1] w1] eqn:E.
    + rewrite (IH (λ p' Hp', Hq p' (list_elem_of_further _ _ _ Hp')) _ _ _ _ H).
      now apply (loop_body_frame _ _ _ _ _ _ Hconf Hqp Hqt E).
    + injection H as <- <-. now apply (loop_body_frame _ _ _ _ _ _ Hconf Hqp Hqt E).
Qed.

(** X5.  A run touches nothing but its files and their temporary paths:
    with binaries that keep to their files, a path that is neither one of
    the files nor the temporary path of one holds at the end what it held
    at the start (or is absent as before), whether the run returns, stops
    at the version probe or ends with an exception. *)
Theorem other_paths_are_untouched files w q :
  confined exec →
  (∀ p, p ∈ files → q ≠ p ∧ q ≠ temp_output p) →
  fs (final (main_from exec files w)) !! q = fs w !! q.
Proof.
  intros Hconf Hq. destruct (decide (files = [])) as [->|Hne]; [reflexivity|].
  rewrite (main_from_unfold exec files w Hne). cbv zeta.
  pose proof (proj1 Hconf (fs w)) as Hrov.
  assert (Hloop :
            fs (final
                  match process_videos exec files (at_loop files (fs w) w) with
                  | (Ret (c, s), w2) =>
                      (Ret tt,
                       with_prints
                         (summary_block c s (Z.of_nat (length files) - c - s)) w2)
                  | (Raise e, w2) => (Raise e, w2)
                  end) !! q = fs w !! q).
  { destruct (process_videos exec files (at_loop files (fs w) w))
      as [[[c s]|e] w2] eqn:E;
      cbn [final snd fs with_prints];
      apply (for_each_frame files q Hconf Hq _ _ _ _ E). }
  destruct (exec (fs w) version_cmd) as [|errno|rc out err f1|rc out err f1];
    cbn [left_by] in Hrov; try reflexivity; subst f1;
    (destruct (rc =? 0); [exact Hloop | reflexivity]).
Qed.



(** X8.  A path in which [.mp4] does not occur is its own temporary
    path, so the cleanup after a failed transcoding removes the original:
    after the iteration the path no longer exists. *)
Theorem cleanup_removes_original_without_mp4
    p c s w c0 rc out err f1 rc2 out2 err2 f2 :
  occurs ".mp4" p = false →
  fs w !! p = Some c0 →
  exec (fs w) (ffprobe_cmd p) = Exited rc out err f1 →
  probed_codec rc out ≠ Some "h264" →
  exec f1 (ffmpeg_cmd p p) = Exited rc2 out2 err2 f2 →
  rc2 ≠ 0 →
  ∃ w',
    loop_body exec p (c, s) w = (Ret (c, s), w')
    ∧ (ffmpeg_cmd p p, Some rc2) ∈ new_calls w w'
    ∧ fs w' !! p = None.
Proof.
  intros Hocc _ Hp Hc Hx Hrc2.
  pose proof (temp_output_without p Hocc) as Htmp.
  rewrite <- Htmp in Hx at 2.
  destruct (loop_body_transcodes exec p c s w rc out err f1 rc2 out2 err2 f2 Hp Hc Hx)
    as (w' & Hbody & Hcalls & _ & Hfs); [intros; contradiction|].
  destruct (Z.eqb_spec rc2 0); [contradiction|].
  exists w'. split; [exact Hbody|]. split.
  - unfold new_calls. rewrite Hcalls, drop_app_length, Htmp.
    apply list_elem_of_further, list_elem_of_here.
  - rewrite Hfs, Htmp. apply lookup_delete_eq.
Qed.

End OnDisk.

(** ** Beyond the claims: running twice *)

Section Twice.

Context {py : Platform}.

Variable exec : Files → list string → Spawn.

(** A run of [main] that converts the video. *)
Lemma main_converts w ov ev rc out err o2 e2 f2 d :
  is_Some (fs w !! video_pattern) →
  exec (fs w) version_cmd = Exited 0 ov ev (fs w) →
  exec (fs w) (ffprobe_cmd video_pattern) = Exited rc out err (fs w) →
  probed_codec rc out ≠ Some "h264" →
  exec (fs w) (ffmpeg_cmd video_pattern (temp_output video_pattern)) = Exited 0 o2 e2 f2 →
  f2 !! temp_output video_pattern = Some d →
  ∃ w1,
    main exec w = (Ret tt, w1)
    ∧ fs w1 = <[video_pattern := d]> (delete (temp_output video_pattern) f2)
    ∧ prints_summary (new_lines w w1) 1 0 0.
Proof.
  intros Hsome Hv Hp Hc Hx Hd.
  rewrite main_eq, (candidates_some _ Hsome).
  rewrite (main_from_available exec [video_pattern] w ov ev (fs w)) by
    (discriminate || exact Hv).
  unfold process_videos.
  erewrite for_each_cons; cycle 1.
  { apply (loop_body_converted exec video_pattern 0 0 (at_loop [video_pattern] (fs w) w)
             rc out err (fs w) Hp Hc o2 e2 f2 d); [exact Hx | exact Hd]. }
  cbn [for_each mret M_ret]. eexists. split; [reflexivity|].
  split; [reflexivity|].
  unfold new_lines.
  cbn [printed with_prints with_print with_fs after_convert_ok ran with_call].
  rewrite printed_at_convert.
  cbn [printed at_loop with_prints with_print with_fs ran with_call].
  rewrite <- !app_assoc, drop_app_length. eexists.
  rewrite !app_assoc. reflexivity.
Qed.

(** A run of [main] on a video that probes as H.264. *)
Lemma main_skips w ov ev out err :
  is_Some (fs w !! video_pattern) →
  exec (fs w) version_cmd = Exited 0 ov ev (fs w) →
  exec (fs w) (ffprobe_cmd video_pattern) = Exited 0 out err (fs w) →
  PyStr.strip out = "h264" →
  ∃ w2,
    main exec w = (Ret tt, w2)
    ∧ fs w2 = fs w
    ∧ transcodes (new_calls w w2) = []
    ∧ prints_summary (new_lines w w2) 0 1 0.
Proof.
  intros Hsome Hv Hp Hs.
  rewrite main_eq, (candidates_some _ Hsome).
  rewrite (main_from_available exec [video_pattern] w ov ev (fs w)) by
    (discriminate || exact Hv).
  unfold process_videos. rewrite for_each_all_skip; cycle 1.
  { intros p Hin. apply list_elem_of_singleton in Hin as ->.
    exists out, err. split; [exact Hp | exact Hs]. }
  eexists. split; [reflexivity|]. split; [reflexivity|].
  unfold new_calls, new_lines.
  cbn [calls printed with_prints at_loop with_print with_fs ran with_call map length].
  rewrite <- !app_assoc, !drop_app_length. split; [reflexivity|].
  eexists. rewrite app_assoc. reflexivity.
Qed.

(** X9.  Running [main] twice.  If the first run converts the video and
    the prober then recognises what the transcoder wrote as H.264, the
    second run skips the file: it spawns no transcoder, leaves the file
    system as the first run left it, and reports nothing converted, one
    file skipped, none failed. *)
Theorem second_run_skips w ov ev rc out err o2 e2 f2 d ov' ev' out' err' :
  is_Some (fs w !! video_pattern) →
  exec (fs w) version_cmd = Exited 0 ov ev (fs w) →
  exec (fs w) (ffprobe_cmd video_pattern) = Exited rc out err (fs w) →
  probed_codec rc out ≠ Some "h264" →
  exec (fs w) (ffmpeg_cmd video_pattern (temp_output video_pattern)) = Exited 0 o2 e2 f2 →
  f2 !! temp_output video_pattern = Some d →
  let f' := <[video_pattern := d]> (delete (temp_output video_pattern) f2) in
  exec f' version_cmd = Exited 0 ov' ev' f' →
  exec f' (ffprobe_cmd video_pattern) = Exited 0 out' err' f' →
  PyStr.strip out' = "h264" →
  ∃ w1 w2,
    main exec w = (Ret tt, w1)
    ∧ main exec w1 = (Ret tt, w2)
    ∧ fs w1 = f'
    ∧ fs w2 = f'
    ∧ prints_summary (new_lines w w1) 1 0 0
    ∧ prints_summary (new_lines w1 w2) 0 1 0
    ∧ transcodes (new_calls w1 w2) = [].
Proof.
  intros Hsome Hv Hp Hc Hx Hd f' Hv' Hp' Hs'.
  destruct (main_converts w ov ev rc out err o2 e2 f2 d Hsome Hv Hp Hc Hx Hd)
    as (w1 & Hrun1 & Hfs1 & Hsum1).
  fold f' in Hfs1.
  assert (Hsome1 : is_Some (fs w1 !! video_pattern)).
  { rewrite Hfs1. unfold f'. rewrite lookup_insert_eq. eauto. }
  rewrite <- Hfs1 in Hv', Hp'.
  destruct (main_skips w1 ov' ev' out' err' Hsome1 Hv' Hp' Hs')
    as (w2 & Hrun2 & Hfs2 & Htr & Hsum2).
  exists w1, w2. rewrite Hfs2, Hfs1. repeat split; assumption.
Qed.

End Twice.

(** ** The properties beyond the claims, on the stand-ins *)

Section BeyondOnStandIns.

#[local] Existing Instance plain_platform.

Lemma probe_answer_is_stripped_witness :
  let pre := String "013" (String "010" (String "194" (String "160" " "))) in
  let post := String "013" (String "010" (String "226" (String "128" (String "168" "")))) in
  let exec := fake 0 (pre +:+ "h264" +:+ post) 0 in
  let p := video_pattern in
  let f1 := fs one_video in
  exec (fs one_video) (ffprobe_cmd p)
  = Exited 0 (pre +:+ "h264" +:+ post) "probe-diagnostic" f1
  ∧ PyStr.blank pre = true ∧ word "h264" = true ∧ PyStr.blank post = true
  ∧ get_video_info exec p one_video
    = (Ret (Some "h264"), ran (ffprobe_cmd p) 0 f1 one_video)
  ∧ ("h264" = "h264" →
     loop_body exec p (0, 0) one_video
     = (Ret (0, 0 + 1),
        mkWorld f1 (printed one_video ++ [skip_line p])
          (calls one_video ++ [(ffprobe_cmd p, Some 0)]) (hist one_video ++ [f1]))).
Proof.
  intros pre post exec p f1.
  split; [reflexivity|]. split; [reflexivity|]. split; [reflexivity|].
  split; [reflexivity|].
  exact (probe_answer_is_stripped exec p 0 0 one_video pre "h264" post
           "probe-diagnostic" f1 eq_refl eq_refl eq_refl eq_refl).
Defined.

Lemma convert_video_confined_witness :
  let i := video_pattern in
  let o := temp_output video_pattern in
  let w := one_video in
  (let exec := fake 0 "mpeg4" 1 in
   let w' := final (convert_video exec i o w) in
   writes_only exec (ffmpeg_cmd i o) o
   ∧ convert_video exec i o w = (Ret false, w')
   ∧ (∀ q, q ≠ o → fs w' !! q = fs w !! q)
   ∧ fs w' = <[o := "PART"]> (fs w)
   ∧ new_calls w w' = [(ffmpeg_cmd i o, Some 1)]
   ∧ Ret false = Ret (A := bool) (1 =? 0)
   ∧ (∀ rc cmd err, Ret false ≠ Raise (CalledProcessError rc cmd err))
   ∧ (Ret (A := bool) false = Ret true →
      new_lines w w' = ["Converting: " +:+ PyStr.basename i;
                        "✓ Successfully converted: " +:+ PyStr.basename i])
   ∧ (Ret (A := bool) false = Ret false →
      ∃ rc out err f',
        exec (fs w) (ffmpeg_cmd i o) = Exited rc out err f' ∧ rc ≠ 0
        ∧ new_lines w w' = ["Converting: " +:+ PyStr.basename i;
                            convert_error_line i o rc err;
                            "stderr: " +:+ PyStr.universal_newlines err]))
  ∧ (let exec := locked_transcoder in
     let w' := final (convert_video exec i o w) in
     writes_only exec (ffmpeg_cmd i o) o
     ∧ convert_video exec i o w = (Raise (OSError 13), w')
     ∧ (∀ q, q ≠ o → fs w' !! q = fs w !! q)
     ∧ fs w' = fs w
     ∧ new_calls w w' = [(ffmpeg_cmd i o, None)]).
Proof.
  intros i o w. split.
  - intros exec w'.
    assert (Hwo : writes_only exec (ffmpeg_cmd i o) o) by apply fake_confined.
    split; [exact Hwo|]. split; [reflexivity|].
    exact (convert_video_confined exec i o w (Ret false) w' Hwo eq_refl).
  - intros exec w'.
    assert (Hwo : writes_only exec (ffmpeg_cmd i o) o) by (intros f q _; reflexivity).
    split; [exact Hwo|]. split; [reflexivity|].
    destruct (convert_video_confined exec i o w (Raise (OSError 13)) w' Hwo eq_refl)
      as (H1 & H2 & H3 & _).
    split; [exact H1|]. split; [exact H2 | exact H3].
Defined.

Lemma no_exit_status_ends_the_run_witness :
  let exec := fake 0 "mpeg4" 1 in
  let files := [video_pattern] in
  let w := one_video in
  responsive exec ∧ leaves_output exec
  ∧ (∀ errno, exec (fs w) version_cmd ≠ Refused errno)
  ∧ (∀ rc cmd err, ending (main_from exec files w) ≠ Raise (CalledProcessError rc cmd err))
  ∧ (∀ rc cmd err, ending (main exec w) ≠ Raise (CalledProcessError rc cmd err))
  ∧ ending (main_from exec files w) = Ret tt ∧ ending (main exec w) = Ret tt.
Proof.
  intros exec files w.
  assert (Hv : ∀ errno, exec (fs w) version_cmd ≠ Refused errno) by discriminate.
  destruct (no_exit_status_ends_the_run exec files w) as (H1 & H2 & H3).
  split; [apply fake_responsive|]. split; [apply fake_leaves_output|].
  split; [exact Hv|]. split; [exact H1|]. split; [exact H2|].
  exact (H3 (fake_responsive 0 "mpeg4" 1) (fake_leaves_output 0 "mpeg4" 1) Hv).
Defined.

Lemma refused_version_probe_ends_the_run_witness :
  let exec := no_permission in
  let files := [video_pattern] in
  let w := one_video in
  let w' := final (main_from exec files w) in
  files ≠ []
  ∧ exec (fs w) version_cmd = Refused 13
  ∧ ending (main_from exec files w) = Raise (OSError 13)
  ∧ new_lines w w' = [found_line (Z.of_nat (length files))]
  ∧ new_calls w w' = [(version_cmd, None)]
  ∧ fs w' = fs w
  ∧ hist w' = hist w
  ∧ (candidates w = files → main exec w = main_from exec files w).
Proof.
  intros exec files w w'.
  assert (Hne : files ≠ []) by discriminate.
  split; [exact Hne|]. split; [reflexivity|].
  exact (refused_version_probe_ends_the_run exec files w 13 Hne eq_refl).
Defined.

Lemma version_probe_is_not_decoded_witness :
  let files := [video_pattern] in
  let w := one_video in
  (let exec := garbled_banner 0 in
   files ≠ []
   ∧ exec (fs w) version_cmd = Garbled 0 (String "255" EmptyString) "" (fs w)
   ∧ 0 = 0
   ∧ main_from exec files w
     = match process_videos exec files (at_loop files (fs w) w) with
       | (Ret (c, s), w2) =>
           (Ret tt, with_prints (summary_block c s (Z.of_nat (length files) - c - s)) w2)
       | (Raise e, w2) => (Raise e, w2)
       end
   ∧ ending (main_from exec files w) = Ret tt
   ∧ prints_summary (printed (final (main_from exec files w))) 0 1 0)
  ∧ (let exec := garbled_banner 1 in
     let w' := final (main_from exec files w) in
     files ≠ []
     ∧ exec (fs w) version_cmd = Garbled 1 (String "255" EmptyString) "" (fs w)
     ∧ 1 ≠ 0
     ∧ ending (main_from exec files w) = Ret tt
     ∧ new_lines w w'
       = [found_line (Z.of_nat (length files));
          "Error: ffmpeg is not installed or not in PATH";
          "Please install ffmpeg: brew install ffmpeg"]
     ∧ new_calls w w' = [(version_cmd, Some 1)]
     ∧ fs w' = fs w).
Proof.
  intros files w.
  assert (Hne : files ≠ []) by discriminate.
  assert (H1 : 1 ≠ 0) by discriminate.
  split.
  - intros exec. split; [exact Hne|]. split; [reflexivity|]. split; [reflexivity|].
    split.
    + exact (proj1 (version_probe_is_not_decoded exec files w 0
                      (String "255" EmptyString) "" (fs w) Hne eq_refl) eq_refl).
    + split; [vm_compute; reflexivity|].
      exists (take 2 (printed (final (main_from exec files w)))). vm_compute. reflexivity.
  - intros exec w'. split; [exact Hne|]. split; [reflexivity|]. split; [exact H1|].
    exact (proj2 (version_probe_is_not_decoded exec files w 1
                    (String "255" EmptyString) "" (fs w) Hne eq_refl) H1).
Defined.

Lemma each_file_is_tried_once_witness :
  let files := ["a.mp4"; "b.mp4"; "c.mp4"] in
  let run := for_each files (loop_body scenario) (0, 0) three_videos in
  run = (ending run, final run)
  ∧ ∃ new,
      calls (final run) = calls three_videos ++ new
      ∧ probes new `prefix_of` map ffprobe_cmd files
      ∧ (∀ cs', ending run = Ret cs' → probes new = map ffprobe_cmd files)
      ∧ transcodes new `sublist_of` map (λ p, ffmpeg_cmd p (temp_output p)) files.
Proof.
  intros files run.
  assert (Hrun : run = (ending run, final run)) by (vm_compute; reflexivity).
  split; [exact Hrun|].
  exact (each_file_is_tried_once scenario files (0, 0) three_videos
           (ending run) (final run) Hrun).
Defined.

Lemma other_paths_are_untouched_witness :
  let exec := fake 0 "mpeg4" 0 in
  let files := [video_pattern] in
  let w := mkWorld (<["notes.txt" := "keep"]> (fs one_video)) [] [] [] in
  confined exec
  ∧ (∀ p, p ∈ files → "notes.txt" ≠ p ∧ "notes.txt" ≠ temp_output p)
  ∧ fs (final (main_from exec files w)) !! "notes.txt" = fs w !! "notes.txt".
Proof.
  intros exec files w.
  assert (Hq : ∀ p, p ∈ files → "notes.txt" ≠ p ∧ "notes.txt" ≠ temp_output p).
  { intros p Hp. apply list_elem_of_singleton in Hp as ->. split; discriminate. }
  split; [apply fake_confined|]. split; [exact Hq|].
  exact (other_paths_are_untouched exec files w "notes.txt" (fake_confined 0 "mpeg4" 0) Hq).
Defined.


Lemma cleanup_removes_original_without_mp4_witness :
  let exec := fake 0 "mpeg4" 1 in
  let p := "CLIP.MP4" in
  let w := upper_video in
  let f2 := <[p := "PART"]> (fs w) in
  occurs ".mp4" p = false
  ∧ fs w !! p = Some "MPEG4DATA"
  ∧ exec (fs w) (ffprobe_cmd p) = Exited 0 "mpeg4" "probe-diagnostic" (fs w)
  ∧ probed_codec 0 "mpeg4" ≠ Some "h264"
  ∧ exec (fs w) (ffmpeg_cmd p p) = Exited 1 "" "encoder-diagnostic" f2
  ∧ 1 ≠ 0
  ∧ ∃ w',
      loop_body exec p (0, 0) w = (Ret (0, 0), w')
      ∧ (ffmpeg_cmd p p, Some 1) ∈ new_calls w w'
      ∧ fs w' !! p = None.
Proof.
  intros exec p w f2.
  assert (Hc : probed_codec 0 "mpeg4" ≠ Some "h264") by discriminate.
  assert (Hrc : 1 ≠ 0) by discriminate.
  split; [reflexivity|]. split; [reflexivity|]. split; [reflexivity|].
  split; [exact Hc|]. split; [reflexivity|]. split; [exact Hrc|].
  exact (cleanup_removes_original_without_mp4 exec p 0 0 w "MPEG4DATA"
           0 "mpeg4" "probe-diagnostic" (fs w) 1 "" "encoder-diagnostic" f2
           eq_refl eq_refl eq_refl Hc eq_refl Hrc).
Defined.

Lemma second_run_skips_witness :
  let exec := content_prober in
  let p := video_pattern in
  let w := one_video in
  let f2 := <[temp_output p := "H264DATA"]> (fs w) in
  let f' := <[p := "H264DATA"]> (delete (temp_output p) f2) in
  is_Some (fs w !! p)
  ∧ exec (fs w) version_cmd = Exited 0 "ffmpeg version 6.0" "" (fs w)
  ∧ exec (fs w) (ffprobe_cmd p) = Exited 0 ("mpeg4" +:+ nl) "" (fs w)
  ∧ probed_codec 0 ("mpeg4" +:+ nl) ≠ Some "h264"
  ∧ exec (fs w) (ffmpeg_cmd p (temp_output p)) = Exited 0 "" "" f2
  ∧ f2 !! temp_output p = Some "H264DATA"
  ∧ exec f' version_cmd = Exited 0 "ffmpeg version 6.0" "" f'
  ∧ exec f' (ffprobe_cmd p) = Exited 0 ("h264" +:+ nl) "" f'
  ∧ PyStr.strip ("h264" +:+ nl) = "h264"
  ∧ ∃ w1 w2,
      main exec w = (Ret tt, w1)
      ∧ main exec w1 = (Ret tt, w2)
      ∧ fs w1 = f'
      ∧ fs w2 = f'
      ∧ prints_summary (new_lines w w1) 1 0 0
      ∧ prints_summary (new_lines w1 w2) 0 1 0
      ∧ transcodes (new_calls w1 w2) = [].
Proof.
  intros exec p w f2 f'.
  assert (Hc : probed_codec 0 ("mpeg4" +:+ nl) ≠ Some "h264") by discriminate.
  split; [exact one_video_found|]. split; [reflexivity|]. split; [reflexivity|].
  split; [exact Hc|]. split; [reflexivity|]. split; [reflexivity|].
  split; [reflexivity|]. split; [reflexivity|]. split; [reflexivity|].
  exact (second_run_skips exec w "ffmpeg version 6.0" "" 0 ("mpeg4" +:+ nl) ""
           "" "" f2 "H264DATA" "ffmpeg version 6.0" "" ("h264" +:+ nl) ""
           one_video_found eq_refl eq_refl Hc eq_refl eq_refl eq_refl eq_refl eq_refl).
Defined.

Lemma temp_output_collides_iff_witness :
  let p := video_pattern in
  occurs ".mp4" p = true
  ∧ p = "static/videos/video_0446" +:+ ".mp4"
  ∧ (temp_output p = p ↔ occurs ".mp4" p = false)
  ∧ (String.length p < String.length (temp_output p))%nat
  ∧ temp_output p ≠ p.
Proof.
  intros p.
  destruct (temp_output_collides_iff p) as (Hiff & Hlen & Hsuffix).
  split; [reflexivity|]. split; [reflexivity|]. split; [exact Hiff|].
  split; [exact (Hlen eq_refl) | exact (Hsuffix "static/videos/video_0446" eq_refl)].
Defined.

End BeyondOnStandIns.
